(** * Token acquisition of the key vault flexvolume driver (oauth.go)

    A shallow embedding of [azurekeyvault-flexvolume/oauth.go]: environment
    resolution, the two token entry points and [GetServicePrincipalToken].

    The Go packages the file imports (go-autorest's [azure], [adal] and
    [autorest], [net/http], [io/ioutil], [encoding/json]) are not part of
    the repository.  They are taken as an interface, [GoLibs], over which the
    whole development is parametric; [Module Stub] gives a test double of
    that interface on which concrete runs are evaluated. *)

From Stdlib Require Import String Ascii ZArith List Bool Lia DecimalString.
Import ListNotations.
Local Open Scope string_scope.
Local Open Scope Z_scope.

Set Implicit Arguments.

(** ** Data model *)

(** [type OAuthGrantType int], with the two [iota] constants. *)
Definition OAuthGrantType : Type := Z.
Definition OAuthGrantTypeServicePrincipal : OAuthGrantType := 0.
Definition OAuthGrantTypeDeviceFlow : OAuthGrantType := 1.

(** [func AuthGrantType() OAuthGrantType] *)
Definition AuthGrantType : OAuthGrantType := OAuthGrantTypeServicePrincipal.

(** The constants of the file. *)
Definition nmiendpoint : string := "http://localhost:2579/host/token/".
Definition podnameheader : string := "podname".
Definition podnsheader : string := "podns".

(** [http.StatusOK] *)
Definition StatusOK : Z := 200.

(** The fields of [azure.Environment] that oauth.go reads. *)
Record Environment : Type := mkEnvironment {
  Name : string;
  ResourceManagerEndpoint : string;
  ActiveDirectoryEndpoint : string;
  KeyVaultEndpoint : string
}.

(** [adal.Token]: every field is a JSON string. *)
Record Token : Type := mkToken {
  AccessToken : string;
  RefreshToken : string;
  ExpiresIn : string;
  ExpiresOn : string;
  NotBefore : string;
  Resource : string;
  Type_ : string
}.

(** [type NMIResponse struct { Token adal.Token; ClientID string }] *)
Record NMIResponse : Type := mkNMIResponse {
  Token_ : Token;
  ClientID : string
}.

(** ** Go strings

    A Go string is a sequence of bytes, as is a Rocq [string]; [len] is an
    [int], so [len(s)-1] is [-1] on the empty string and indexing with it
    panics. *)

Inductive PanicValue : Type :=
| IndexOutOfRange (index length : Z)
| SliceOutOfRange (bound length : Z)
| NilPointerDereference.

Inductive Outcome (A : Type) : Type :=
| Returns (a : A)
| Panics (p : PanicValue).
Arguments Panics {A} p.

Definition len (s : string) : Z := Z.of_nat (String.length s).

(** [s[i]] *)
Definition index (s : string) (i : Z) : Outcome ascii :=
  if (0 <=? i) && (i <? len s) then
    match String.get (Z.to_nat i) s with
    | Some c => Returns c
    | None => Panics (IndexOutOfRange i (len s))
    end
  else Panics (IndexOutOfRange i (len s)).

(** [s[:hi]] *)
Definition slice_to (s : string) (hi : Z) : Outcome string :=
  if (0 <=? hi) && (hi <=? len s) then Returns (String.substring 0 (Z.to_nat hi) s)
  else Panics (SliceOutOfRange hi (len s)).

(** [fmt.Sprintf("%d", n)] *)
Definition itoa (n : Z) : string := NilZero.string_of_int (Z.to_int n).

(** The newline of the format strings. *)
Definition nl : string := String (ascii_of_nat 10) EmptyString.

(** Lines 107-110 of [GetKeyvaultToken], the normalisation of the key vault
    endpoint:
<<
    if '/' == kvEndPoint[len(kvEndPoint)-1] {
        kvEndPoint = kvEndPoint[:len(kvEndPoint)-1]
    }
>> *)
Definition stripTrailingSlash (kvEndPoint : string) : Outcome string :=
  match index kvEndPoint (len kvEndPoint - 1) with
  | Panics p => Panics p
  | Returns c =>
      if Ascii.eqb "/"%char c then slice_to kvEndPoint (len kvEndPoint - 1)
      else Returns kvEndPoint
  end.

(** The normalisation applied to its own result. *)
Definition stripTwice (kvEndPoint : string) : Outcome string :=
  match stripTrailingSlash kvEndPoint with
  | Returns once => stripTrailingSlash once
  | Panics p => Panics p
  end.

(** [s] with the byte [c] after it. *)
Definition snoc (s : string) (c : ascii) : string := s ++ String c EmptyString.

(** ** The imported packages *)

Class GoLibs : Type := {
  (** errors made by the libraries, with their [Error()] text *)
  lib_error : Type;
  lib_Error : lib_error -> string;
  (** [adal.OAuthConfig], [adal.ServicePrincipalToken], [http.Request] and
      the body of an [http.Response] *)
  OAuthConfig : Type;
  ServicePrincipalToken : Type;
  Request : Type;
  Body : Type;
  (** [azure.PublicCloud] and [azure.EnvironmentFromName], which returns an
      environment and an error side by side *)
  azure_PublicCloud : Environment;
  azure_EnvironmentFromName : string -> Environment * option lib_error;
  (** [adal.NewOAuthConfig(activeDirectoryEndpoint, tenantID)] *)
  adal_NewOAuthConfig : string -> string -> OAuthConfig + lib_error;
  (** [adal.NewServicePrincipalToken(oauthConfig, clientID, secret, resource)] *)
  adal_NewServicePrincipalToken :
    OAuthConfig -> string -> string -> string -> ServicePrincipalToken + lib_error;
  (** [adal.NewServicePrincipalTokenFromManualToken(oauthConfig, clientID,
      resource, token, nil)] *)
  adal_NewServicePrincipalTokenFromManualToken :
    OAuthConfig -> string -> string -> Token -> ServicePrincipalToken + lib_error;
  (** [http.NewRequest(method, url, nil)] and [req.Header.Add(key, value)] *)
  http_NewRequest : string -> string -> Request + lib_error;
  Header_Add : Request -> string -> string -> Request;
  (** what [client.Do(req)] comes back with: the status code and the body of
      the response, or a transport error *)
  client_Do : Request -> (Z * Body) + lib_error;
  (** [ioutil.ReadAll(resp.Body)] *)
  ioutil_ReadAll : Body -> string + lib_error;
  (** [json.Unmarshal(bodyBytes, &nmiResp)] with [nmiResp] a
      [*NMIResponse]: the target is a pointer to a pointer, so the JSON
      literal [null] sets [nmiResp] to nil, which is [None] here *)
  json_Unmarshal : string -> option NMIResponse + lib_error
}.

(** ** Runs: what a call prints, logs and sends, and how it ends *)

Section Program.
Context {L : GoLibs}.

(** Go's [error] interface: the values made here by [fmt.Errorf], and the
    values handed over by the libraries. *)
Inductive error : Type :=
| fmt_Errorf (msg : string)
| lib_err (e : lib_error).

(** [err.Error()], which is what the verb [%v] prints. *)
Definition Error (e : error) : string :=
  match e with
  | fmt_Errorf msg => msg
  | lib_err e => lib_Error e
  end.

(** The effects of the file, in the order they happen. *)
Inductive Event : Type :=
| EvGlog (verbosity : Z) (msg : string)      (* glog.V(v).Infoln(msg) *)
| EvStdout (text : string)                   (* fmt.Printf *)
| EvHttpDo (req : Request)                   (* client.Do(req) *)
| EvBodyClose.                               (* resp.Body.Close() *)

(** A run is the list of its events and its outcome; a panic stops it. *)
Definition Run (A : Type) : Type := list Event * Outcome A.

Definition trace {A} (r : Run A) : list Event := fst r.
Definition outcome {A} (r : Run A) : Outcome A := snd r.

Definition ret {A} (a : A) : Run A := ([], Returns a).
Definition panic {A} (p : PanicValue) : Run A := ([], Panics p).
Definition emit (e : Event) : Run unit := ([e], Returns tt).

Definition bind {A B} (m : Run A) (k : A -> Run B) : Run B :=
  match outcome m with
  | Returns a => ((trace m ++ trace (k a))%list, outcome (k a))
  | Panics p => (trace m, Panics p)
  end.

(** [defer d] followed by the rest of the function: [d] runs when the rest
    is over, also when it panicked. *)
Definition defer {A} (d : Event) (rest : Run A) : Run A :=
  ((trace rest ++ [d])%list, outcome rest).

(** A pure Go expression that may panic. *)
Definition eval {A} (o : Outcome A) : Run A := ([], o).

Notation "x <- m ;; k" := (bind m (fun x => k))
  (at level 61, m at next level, right associativity).
Notation "' pat <- m ;; k" := (bind m (fun x => match x with pat => k end))
  (at level 61, pat pattern, m at next level, right associativity).
Notation "m ;;; k" := (bind m (fun _ => k))
  (at level 61, right associativity).

(** [autorest.Authorizer]: either nil or the bearer authorizer that
    [autorest.NewBearerAuthorizer] builds around a token provider, here the
    [*adal.ServicePrincipalToken] it was given. *)
Inductive BearerAuthorizer : Type :=
| NewBearerAuthorizer (tokenProvider : option ServicePrincipalToken).

Definition Authorizer : Type := option BearerAuthorizer.

(** ** The functions of oauth.go *)

(** [ParseAzureEnvironment] returns the environment and the error side by
    side, as the Go function does. *)
Definition ParseAzureEnvironment (cloudName : string) : Environment * option error :=
  if String.eqb cloudName "" then (azure_PublicCloud, None)
  else
    let '(env, err) := azure_EnvironmentFromName cloudName in
    (env, option_map lib_err err).

(** [nmiResp.Token] and [nmiResp.ClientID] on a [*NMIResponse]. *)
Definition deref (nmiResp : option NMIResponse) : Run NMIResponse :=
  match nmiResp with
  | Some r => ret r
  | None => panic NilPointerDereference
  end.

(** The library calls return a pointer and an error of which one is nil. *)
Definition from_lib {A} (r : A + lib_error) : option A * option error :=
  match r with
  | inl a => (Some a, None)
  | inr e => (None, Some (lib_err e))
  end.

Definition GetServicePrincipalToken
    (tenantId : string) (env : Environment) (resource : string)
    (useIntegratedIdentity : bool) (aADClientSecret aADClientID : string)
    (podname podns : string)
  : Run (option ServicePrincipalToken * option error) :=
  match adal_NewOAuthConfig (ActiveDirectoryEndpoint env) tenantId with
  | inr err =>
      ret (None, Some (fmt_Errorf ("creating the OAuth config: " ++ Error (lib_err err))))
  | inl oauthConfig =>
    if useIntegratedIdentity then
      emit (EvGlog 0 "azure: using managed identity extension to retrieve access token") ;;;
      let endpoint := nmiendpoint ++ "?resource=" ++ resource in
      match http_NewRequest "GET" endpoint with
      | inr err => ret (None, Some (lib_err err))
      | inl req =>
        let req := Header_Add req podnsheader podns in
        let req := Header_Add req podnameheader podname in
        emit (EvHttpDo req) ;;;
        match client_Do req with
        | inr err => ret (None, Some (lib_err err))
        | inl (StatusCode, body) =>
          defer EvBodyClose (
            if StatusCode =? StatusOK then
              match ioutil_ReadAll body with
              | inr err => ret (None, Some (lib_err err))
              | inl bodyBytes =>
                match json_Unmarshal bodyBytes with
                | inr err => ret (None, Some (lib_err err))
                | inl nmiResp =>
                  r <- deref nmiResp ;;
                  emit (EvStdout (nl ++ " accesstoken: " ++ AccessToken (Token_ r) ++ nl)) ;;;
                  emit (EvStdout (nl ++ " clientid: " ++ ClientID r ++ nl)) ;;;
                  let token := Token_ r in
                  let clientID := ClientID r in
                  (* [&token == nil]: the address of a local is never nil *)
                  let token_address_is_nil := false in
                  if token_address_is_nil || String.eqb clientID "" then
                    ret (None, Some (fmt_Errorf
                      "nmi did not return expected values in response: token and clientid"))
                  else
                    match adal_NewServicePrincipalTokenFromManualToken
                            oauthConfig clientID resource token with
                    | inr err => ret (None, Some (lib_err err))
                    | inl spt => ret (Some spt, None)
                    end
                end
              end
            else
              ret (None, Some (fmt_Errorf
                ("nmi response failed with status code: " ++ itoa StatusCode))))
        end
      end
    else if 0 <? len aADClientSecret then
      emit (EvGlog 2 "azure: using client_id+client_secret to retrieve access token") ;;;
      ret (from_lib (adal_NewServicePrincipalToken
                       oauthConfig aADClientID aADClientSecret resource))
    else
      ret (None, Some (fmt_Errorf
        ("No credentials provided for AAD application " ++ aADClientID)))
  end.

(** The last lines of both entry points: an error of
    [GetServicePrincipalToken] is returned with a nil authorizer, otherwise
    the token is wrapped. *)
Definition GetManagementToken
    (grantType : OAuthGrantType) (cloudName tenantId : string)
    (useIntegratedIdentity : bool) (aADClientSecret aADClientID : string)
    (podname podns : string)
  : Run (Authorizer * option error) :=
  let '(env, err) := ParseAzureEnvironment cloudName in
  match err with
  | Some err => ret (None, Some err)
  | None =>
    let rmEndPoint := ResourceManagerEndpoint env in
    '(servicePrincipalToken, err) <-
        GetServicePrincipalToken tenantId env rmEndPoint useIntegratedIdentity
          aADClientSecret aADClientID podname podns ;;
    match err with
    | Some err => ret (None, Some err)
    | None => ret (Some (NewBearerAuthorizer servicePrincipalToken), None)
    end
  end.

Definition GetKeyvaultToken
    (grantType : OAuthGrantType) (cloudName tenantId : string)
    (useIntegratedIdentity : bool) (aADClientSecret aADClientID : string)
    (podname podns : string)
  : Run (Authorizer * option error) :=
  let '(env, err) := ParseAzureEnvironment cloudName in
  match err with
  | Some err => ret (None, Some err)
  | None =>
    kvEndPoint <- eval (stripTrailingSlash (KeyVaultEndpoint env)) ;;
    '(servicePrincipalToken, err) <-
        GetServicePrincipalToken tenantId env kvEndPoint useIntegratedIdentity
          aADClientSecret aADClientID podname podns ;;
    match err with
    | Some err => ret (None, Some err)
    | None => ret (Some (NewBearerAuthorizer servicePrincipalToken), None)
    end
  end.

End Program.

(** ** The refinement target of the two entry points

    The orchestrator as the specification words it: resolve the environment,
    select the resource URI, acquire the token through the one channel
    selection of [GetServicePrincipalToken], wrap it.  The entry points are
    compared with it below; it is not used to define them. *)

Section Orchestrator.
Context {L : GoLibs}.

Definition wrap_credential (r : option ServicePrincipalToken * option error)
  : Authorizer * option error :=
  match snd r with
  | Some err => (None, Some err)
  | None => (Some (NewBearerAuthorizer (fst r)), None)
  end.

Definition acquireAuthorizer
    (selectResource : Environment -> Outcome string)
    (cloudName tenantId : string) (useIntegratedIdentity : bool)
    (aADClientSecret aADClientID podname podns : string)
  : Run (Authorizer * option error) :=
  match ParseAzureEnvironment cloudName with
  | (_, Some err) => ret (None, Some err)
  | (env, None) =>
      bind (eval (selectResource env)) (fun resource =>
      bind (GetServicePrincipalToken tenantId env resource useIntegratedIdentity
              aADClientSecret aADClientID podname podns) (fun r =>
      ret (wrap_credential r)))
  end.

Definition managementResource (env : Environment) : Outcome string :=
  Returns (ResourceManagerEndpoint env).

Definition secretsStoreResource (env : Environment) : Outcome string :=
  stripTrailingSlash (KeyVaultEndpoint env).

(** The error values of the specification, as the code spells them. *)
Definition MissingCredential (clientID : string) : error :=
  fmt_Errorf ("No credentials provided for AAD application " ++ clientID).

Definition BrokerResponseError (statusCode : Z) : error :=
  fmt_Errorf ("nmi response failed with status code: " ++ itoa statusCode).

Definition BrokerIncompleteResponse : error :=
  fmt_Errorf "nmi did not return expected values in response: token and clientid".

(** The events of a run that reach outside the process over the network. *)
Definition is_network_call (e : Event) : bool :=
  match e with
  | EvHttpDo _ => true
  | _ => false
  end.

Definition network_calls (t : list Event) : list Event := filter is_network_call t.

(** What a run wrote to standard output. *)
Fixpoint stdout (t : list Event) : string :=
  match t with
  | [] => ""
  | EvStdout s :: t => s ++ stdout t
  | _ :: t => stdout t
  end.

End Orchestrator.

(** ** The entry points by name, and the runs of the channel by branch *)

Inductive EntryPoint : Type := Management | Keyvault.

Section Branches.
Context {L : GoLibs}.

(** The entry point of that name. *)
Definition call (entry : EntryPoint)
  : OAuthGrantType -> string -> string -> bool -> string -> string -> string -> string ->
    Run (Authorizer * option error) :=
  match entry with
  | Management => GetManagementToken
  | Keyvault => GetKeyvaultToken
  end.

(** The resource it asks a token for. *)
Definition resourceOf (entry : EntryPoint) : Environment -> Outcome string :=
  match entry with
  | Management => managementResource
  | Keyvault => secretsStoreResource
  end.

(** The request of the delegated path, once [http.NewRequest] returned
    [req0]. *)
Definition brokerRequest (req0 : Request) (podname podns : string) : Request :=
  Header_Add (Header_Add req0 podnsheader podns) podnameheader podname.

(** The runs of [GetServicePrincipalToken], one constructor for each way
    through the function, in the order of the source. *)
Inductive ChannelRun
    (tenantId : string) (env : Environment) (resource : string)
    (useIntegratedIdentity : bool) (aADClientSecret aADClientID podname podns : string)
  : Run (option ServicePrincipalToken * option error) -> Prop :=
| run_config_error (err : lib_error) :
    adal_NewOAuthConfig (ActiveDirectoryEndpoint env) tenantId = inr err ->
    ChannelRun tenantId env resource useIntegratedIdentity
      aADClientSecret aADClientID podname podns
      ([], Returns (None, Some (fmt_Errorf
             ("creating the OAuth config: " ++ lib_Error err))))
| run_request_error (oauthConfig : OAuthConfig) (err : lib_error) :
    adal_NewOAuthConfig (ActiveDirectoryEndpoint env) tenantId = inl oauthConfig ->
    useIntegratedIdentity = true ->
    http_NewRequest "GET" (nmiendpoint ++ "?resource=" ++ resource) = inr err ->
    ChannelRun tenantId env resource useIntegratedIdentity
      aADClientSecret aADClientID podname podns
      ([EvGlog 0 "azure: using managed identity extension to retrieve access token"],
       Returns (None, Some (lib_err err)))
| run_transport_error (oauthConfig : OAuthConfig) (req0 : Request) (err : lib_error) :
    adal_NewOAuthConfig (ActiveDirectoryEndpoint env) tenantId = inl oauthConfig ->
    useIntegratedIdentity = true ->
    http_NewRequest "GET" (nmiendpoint ++ "?resource=" ++ resource) = inl req0 ->
    client_Do (brokerRequest req0 podname podns) = inr err ->
    ChannelRun tenantId env resource useIntegratedIdentity
      aADClientSecret aADClientID podname podns
      ([EvGlog 0 "azure: using managed identity extension to retrieve access token";
        EvHttpDo (brokerRequest req0 podname podns)],
       Returns (None, Some (lib_err err)))
| run_read_error (oauthConfig : OAuthConfig) (req0 : Request) (body : Body)
    (err : lib_error) :
    adal_NewOAuthConfig (ActiveDirectoryEndpoint env) tenantId = inl oauthConfig ->
    useIntegratedIdentity = true ->
    http_NewRequest "GET" (nmiendpoint ++ "?resource=" ++ resource) = inl req0 ->
    client_Do (brokerRequest req0 podname podns) = inl (StatusOK, body) ->
    ioutil_ReadAll body = inr err ->
    ChannelRun tenantId env resource useIntegratedIdentity
      aADClientSecret aADClientID podname podns
      ([EvGlog 0 "azure: using managed identity extension to retrieve access token";
        EvHttpDo (brokerRequest req0 podname podns); EvBodyClose],
       Returns (None, Some (lib_err err)))
| run_decode_error (oauthConfig : OAuthConfig) (req0 : Request) (body : Body)
    (bodyBytes : string) (err : lib_error) :
    adal_NewOAuthConfig (ActiveDirectoryEndpoint env) tenantId = inl oauthConfig ->
    useIntegratedIdentity = true ->
    http_NewRequest "GET" (nmiendpoint ++ "?resource=" ++ resource) = inl req0 ->
    client_Do (brokerRequest req0 podname podns) = inl (StatusOK, body) ->
    ioutil_ReadAll body = inl bodyBytes ->
    json_Unmarshal bodyBytes = inr err ->
    ChannelRun tenantId env resource useIntegratedIdentity
      aADClientSecret aADClientID podname podns
      ([EvGlog 0 "azure: using managed identity extension to retrieve access token";
        EvHttpDo (brokerRequest req0 podname podns); EvBodyClose],
       Returns (None, Some (lib_err err)))
| run_null (oauthConfig : OAuthConfig) (req0 : Request) (body : Body)
    (bodyBytes : string) :
    adal_NewOAuthConfig (ActiveDirectoryEndpoint env) tenantId = inl oauthConfig ->
    useIntegratedIdentity = true ->
    http_NewRequest "GET" (nmiendpoint ++ "?resource=" ++ resource) = inl req0 ->
    client_Do (brokerRequest req0 podname podns) = inl (StatusOK, body) ->
    ioutil_ReadAll body = inl bodyBytes ->
    json_Unmarshal bodyBytes = inl None ->
    ChannelRun tenantId env resource useIntegratedIdentity
      aADClientSecret aADClientID podname podns
      ([EvGlog 0 "azure: using managed identity extension to retrieve access token";
        EvHttpDo (brokerRequest req0 podname podns); EvBodyClose],
       Panics NilPointerDereference)
| run_incomplete (oauthConfig : OAuthConfig) (req0 : Request) (body : Body)
    (bodyBytes : string) (nmiResp : NMIResponse) :
    adal_NewOAuthConfig (ActiveDirectoryEndpoint env) tenantId = inl oauthConfig ->
    useIntegratedIdentity = true ->
    http_NewRequest "GET" (nmiendpoint ++ "?resource=" ++ resource) = inl req0 ->
    client_Do (brokerRequest req0 podname podns) = inl (StatusOK, body) ->
    ioutil_ReadAll body = inl bodyBytes ->
    json_Unmarshal bodyBytes = inl (Some nmiResp) ->
    ClientID nmiResp = "" ->
    ChannelRun tenantId env resource useIntegratedIdentity
      aADClientSecret aADClientID podname podns
      ([EvGlog 0 "azure: using managed identity extension to retrieve access token";
        EvHttpDo (brokerRequest req0 podname podns);
        EvStdout (nl ++ " accesstoken: " ++ AccessToken (Token_ nmiResp) ++ nl);
        EvStdout (nl ++ " clientid: " ++ ClientID nmiResp ++ nl);
        EvBodyClose],
       Returns (None, Some BrokerIncompleteResponse))
| run_manual_token (oauthConfig : OAuthConfig) (req0 : Request) (body : Body)
    (bodyBytes : string) (nmiResp : NMIResponse) :
    adal_NewOAuthConfig (ActiveDirectoryEndpoint env) tenantId = inl oauthConfig ->
    useIntegratedIdentity = true ->
    http_NewRequest "GET" (nmiendpoint ++ "?resource=" ++ resource) = inl req0 ->
    client_Do (brokerRequest req0 podname podns) = inl (StatusOK, body) ->
    ioutil_ReadAll body = inl bodyBytes ->
    json_Unmarshal bodyBytes = inl (Some nmiResp) ->
    ClientID nmiResp <> "" ->
    ChannelRun tenantId env resource useIntegratedIdentity
      aADClientSecret aADClientID podname podns
      ([EvGlog 0 "azure: using managed identity extension to retrieve access token";
        EvHttpDo (brokerRequest req0 podname podns);
        EvStdout (nl ++ " accesstoken: " ++ AccessToken (Token_ nmiResp) ++ nl);
        EvStdout (nl ++ " clientid: " ++ ClientID nmiResp ++ nl);
        EvBodyClose],
       Returns (from_lib (adal_NewServicePrincipalTokenFromManualToken
                            oauthConfig (ClientID nmiResp) resource (Token_ nmiResp))))
| run_status (oauthConfig : OAuthConfig) (req0 : Request) (status : Z) (body : Body) :
    adal_NewOAuthConfig (ActiveDirectoryEndpoint env) tenantId = inl oauthConfig ->
    useIntegratedIdentity = true ->
    http_NewRequest "GET" (nmiendpoint ++ "?resource=" ++ resource) = inl req0 ->
    client_Do (brokerRequest req0 podname podns) = inl (status, body) ->
    status <> StatusOK ->
    ChannelRun tenantId env resource useIntegratedIdentity
      aADClientSecret aADClientID podname podns
      ([EvGlog 0 "azure: using managed identity extension to retrieve access token";
        EvHttpDo (brokerRequest req0 podname podns); EvBodyClose],
       Returns (None, Some (BrokerResponseError status)))
| run_client_secret (oauthConfig : OAuthConfig) :
    adal_NewOAuthConfig (ActiveDirectoryEndpoint env) tenantId = inl oauthConfig ->
    useIntegratedIdentity = false ->
    aADClientSecret <> "" ->
    ChannelRun tenantId env resource useIntegratedIdentity
      aADClientSecret aADClientID podname podns
      ([EvGlog 2 "azure: using client_id+client_secret to retrieve access token"],
       Returns (from_lib (adal_NewServicePrincipalToken
                            oauthConfig aADClientID aADClientSecret resource)))
| run_no_credentials (oauthConfig : OAuthConfig) :
    adal_NewOAuthConfig (ActiveDirectoryEndpoint env) tenantId = inl oauthConfig ->
    useIntegratedIdentity = false ->
    aADClientSecret = "" ->
    ChannelRun tenantId env resource useIntegratedIdentity
      aADClientSecret aADClientID podname podns
      ([], Returns (None, Some (MissingCredential aADClientID))).

End Branches.

(** ** A test double of the imported packages

    The broker and the JSON decoder are arguments of the double, so that one
    scenario is one pair of functions.  The rest follows go-autorest: an
    environment table looked up by upper-cased name, with the Azure Stack
    name answered from an operator-supplied file; an OAuth configuration
    that is refused when the tenant makes an unparsable URL; tokens that
    record what they were built from. *)

Module Stub.

Inductive StubError : Type :=
| NoSuchCloud (name : string)
| InvalidURLEscape (url : string)
| ConnectionRefused
| InvalidJSON
| ParameterEmpty (name : string).

Definition StubError_text (e : StubError) : string :=
  match e with
  | NoSuchCloud name =>
      "autorest/azure: There is no cloud environment matching the name " ++ name
  | InvalidURLEscape url => "parse " ++ url ++ ": invalid URL escape"
  | ConnectionRefused => "dial tcp 127.0.0.1:2579: connect: connection refused"
  | InvalidJSON => "invalid character looking for beginning of value"
  | ParameterEmpty name => "parameter '" ++ name ++ "' cannot be empty"
  end.

Record StubRequest : Type := mkRequest {
  Method : string;
  URL : string;
  Header : list (string * string)
}.

Record StubOAuthConfig : Type := mkOAuthConfig {
  AuthorityEndpoint : string;
  TenantID : string
}.

Inductive Secret : Type :=
| ServicePrincipalTokenSecret (clientSecret : string)
| ServicePrincipalNoSecret.

Record StubToken : Type := mkSPT {
  spt_oauthConfig : StubOAuthConfig;
  spt_clientID : string;
  spt_resource : string;
  spt_secret : Secret;
  spt_token : Token
}.

Definition zeroToken : Token := mkToken "" "" "" "" "" "" "".

Definition upper (c : ascii) : ascii :=
  let n := nat_of_ascii c in
  if ((97 <=? n) && (n <=? 122))%nat then ascii_of_nat (n - 32) else c.

Fixpoint ToUpper (s : string) : string :=
  match s with
  | EmptyString => EmptyString
  | String c s => String (upper c) (ToUpper s)
  end.

Definition is_hex (c : ascii) : bool :=
  let n := nat_of_ascii c in
  (((48 <=? n) && (n <=? 57)) || ((65 <=? n) && (n <=? 70))
   || ((97 <=? n) && (n <=? 102)))%nat.

(** Every [%] is followed by two hexadecimal digits. *)
Fixpoint escapes_ok (s : string) : bool :=
  match s with
  | EmptyString => true
  | String c rest =>
      if Ascii.eqb c "%"%char then
        match rest with
        | String a (String b _) => is_hex a && is_hex b && escapes_ok rest
        | _ => false
        end
      else escapes_ok rest
  end.

Definition PublicCloud : Environment :=
  mkEnvironment "AzurePublicCloud" "https://management.azure.com/"
    "https://login.microsoftonline.com/" "https://vault.azure.net/".

Definition ChinaCloud : Environment :=
  mkEnvironment "AzureChinaCloud" "https://management.chinacloudapi.cn/"
    "https://login.chinacloudapi.cn/" "https://vault.azure.cn/".

Definition GermanCloud : Environment :=
  mkEnvironment "AzureGermanCloud" "https://management.microsoftazure.de/"
    "https://login.microsoftonline.de/" "https://vault.microsoftazure.de/".

(** The environment of an Azure Stack whose file names the resource manager
    and the directory, and no key vault. *)
Definition StackCloud : Environment :=
  mkEnvironment "AzureStackCloud" "https://management.local.azurestack.external/"
    "https://login.windows.net/" "".

Definition zeroEnvironment : Environment := mkEnvironment "" "" "" "".

Definition EnvironmentFromName (name : string) : Environment * option StubError :=
  let name := ToUpper name in
  if String.eqb name "AZURESTACKCLOUD" then (StackCloud, None)
  else if String.eqb name "AZUREPUBLICCLOUD" then (PublicCloud, None)
  else if String.eqb name "AZURECHINACLOUD" then (ChinaCloud, None)
  else if String.eqb name "AZUREGERMANCLOUD" then (GermanCloud, None)
  else (zeroEnvironment, Some (NoSuchCloud name)).

Definition NewOAuthConfig (activeDirectoryEndpoint tenantID : string)
  : StubOAuthConfig + StubError :=
  if String.eqb activeDirectoryEndpoint "" then inr (ParameterEmpty "activeDirectoryEndpoint")
  else if escapes_ok tenantID then inl (mkOAuthConfig activeDirectoryEndpoint tenantID)
  else inr (InvalidURLEscape (tenantID ++ "/oauth2/authorize?api-version=1.0")).

Definition NewServicePrincipalTokenWithSecret
    (oauthConfig : StubOAuthConfig) (clientID resource : string) (secret : Secret)
  : StubToken + StubError :=
  if String.eqb clientID "" then inr (ParameterEmpty "id")
  else if String.eqb resource "" then inr (ParameterEmpty "resource")
  else inl (mkSPT oauthConfig clientID resource secret zeroToken).

Definition NewServicePrincipalToken
    (oauthConfig : StubOAuthConfig) (clientID secret resource : string)
  : StubToken + StubError :=
  if String.eqb secret "" then inr (ParameterEmpty "secret")
  else NewServicePrincipalTokenWithSecret oauthConfig clientID resource
         (ServicePrincipalTokenSecret secret).

Definition NewServicePrincipalTokenFromManualToken
    (oauthConfig : StubOAuthConfig) (clientID resource : string) (token : Token)
  : StubToken + StubError :=
  match NewServicePrincipalTokenWithSecret oauthConfig clientID resource
          ServicePrincipalNoSecret with
  | inl spt => inl (mkSPT (spt_oauthConfig spt) (spt_clientID spt) (spt_resource spt)
                      (spt_secret spt) token)
  | inr e => inr e
  end.

Definition NewRequest (method url : string) : StubRequest + StubError :=
  if escapes_ok url then inl (mkRequest method url [])
  else inr (InvalidURLEscape url).

Definition Add (req : StubRequest) (key value : string) : StubRequest :=
  mkRequest (Method req) (URL req) (Header req ++ [(key, value)])%list.

Definition libs
    (broker : StubRequest -> (Z * string) + StubError)
    (unmarshal : string -> option NMIResponse + StubError) : GoLibs :=
  {| lib_error := StubError;
     lib_Error := StubError_text;
     OAuthConfig := StubOAuthConfig;
     ServicePrincipalToken := StubToken;
     Request := StubRequest;
     Body := string;
     azure_PublicCloud := PublicCloud;
     azure_EnvironmentFromName := EnvironmentFromName;
     adal_NewOAuthConfig := NewOAuthConfig;
     adal_NewServicePrincipalToken := NewServicePrincipalToken;
     adal_NewServicePrincipalTokenFromManualToken := NewServicePrincipalTokenFromManualToken;
     http_NewRequest := NewRequest;
     Header_Add := Add;
     client_Do := broker;
     ioutil_ReadAll := fun body => inl body;
     json_Unmarshal := unmarshal |}.

(** *** Scenarios *)

Definition brokerToken (accessToken : string) : Token :=
  mkToken accessToken "" "3600" "1520000000" "1519996400" "https://vault.azure.net" "Bearer".

(** A broker that answers every request with one status and one body, and a
    decoder that reads every body as one value. *)
Definition answering (status : Z) (body : string) (decoded : option NMIResponse) : GoLibs :=
  libs (fun _ => inl (status, body)) (fun _ => inl decoded).

(** [200 {token: {...valid...}, clientid: abc}] *)
Definition brokerOK : GoLibs :=
  answering 200 "token-and-clientid" (Some (mkNMIResponse (brokerToken "eyJ0eXAi") "abc")).

(** [200 {token: {...valid...}, clientid: (empty)}] *)
Definition brokerNoClientID : GoLibs :=
  answering 200 "token-only" (Some (mkNMIResponse (brokerToken "eyJ0eXAi") "")).

(** [200] with a token whose [access_token] is empty. *)
Definition brokerNoAccessToken : GoLibs :=
  answering 200 "empty-access-token" (Some (mkNMIResponse (brokerToken "") "abc")).

(** [200 null] *)
Definition brokerNull : GoLibs := answering 200 "null" None.

(** [404] *)
Definition broker404 : GoLibs := answering 404 "" None.

(** No broker on the node. *)
Definition brokerDown : GoLibs :=
  libs (fun _ => inr ConnectionRefused) (fun _ => inr InvalidJSON).

(** *** The requests and the credential of the scenarios *)

(** The request for a token for a resource, from the pod [pod] of the
    namespace [ns]. *)
Definition requestFor (resource : string) : StubRequest :=
  mkRequest "GET" ("http://localhost:2579/host/token/?resource=" ++ resource)
    [("podns", "ns"); ("podname", "pod")].

Definition publicConfig : StubOAuthConfig :=
  mkOAuthConfig "https://login.microsoftonline.com/" "tenant".

(** The credential made of the token of [brokerOK] for the key vault. *)
Definition vaultCredential : StubToken :=
  mkSPT publicConfig "abc" "https://vault.azure.net" ServicePrincipalNoSecret
    (brokerToken "eyJ0eXAi").

(** *** An Azure Stack described by a file of the operator *)

(** The lookup when the environment file of the Azure Stack name holds
    [file]. *)
Definition EnvironmentFromNameWith (file : Environment) (name : string)
  : Environment * option StubError :=
  if String.eqb (ToUpper name) "AZURESTACKCLOUD" then (file, None)
  else EnvironmentFromName name.

Definition libsWithFile (file : Environment)
    (broker : StubRequest -> (Z * string) + StubError)
    (unmarshal : string -> option NMIResponse + StubError) : GoLibs :=
  {| lib_error := StubError;
     lib_Error := StubError_text;
     OAuthConfig := StubOAuthConfig;
     ServicePrincipalToken := StubToken;
     Request := StubRequest;
     Body := string;
     azure_PublicCloud := PublicCloud;
     azure_EnvironmentFromName := EnvironmentFromNameWith file;
     adal_NewOAuthConfig := NewOAuthConfig;
     adal_NewServicePrincipalToken := NewServicePrincipalToken;
     adal_NewServicePrincipalTokenFromManualToken := NewServicePrincipalTokenFromManualToken;
     http_NewRequest := NewRequest;
     Header_Add := Add;
     client_Do := broker;
     ioutil_ReadAll := fun body => inl body;
     json_Unmarshal := unmarshal |}.

(** A stack whose key vault endpoint is its management endpoint followed
    by the separator. *)
Definition SameEndpoints : Environment :=
  mkEnvironment "AzureStackCloud" "https://same.example"
    "https://login.windows.net/" "https://same.example/".

Definition stackWithSameEndpoints : GoLibs :=
  libsWithFile SameEndpoints (fun _ => inr ConnectionRefused) (fun _ => inr InvalidJSON).

End Stub.

(** ** Tactics *)

(** Unfolding of the run combinators. *)
Ltac run_simpl :=
  unfold bind, emit, ret, panic, defer, eval, deref, from_lib, trace, outcome in *;
  simpl in *.

(** Case analysis along the branches of a run. *)
Ltac branch :=
  match goal with
  | |- context [match ?x with _ => _ end] => destruct x eqn:?
  | H : context [match ?x with _ => _ end] |- _ => destruct x eqn:?
  | |- context [if ?b then _ else _] => destruct b eqn:?
  | H : context [if ?b then _ else _] |- _ => destruct b eqn:?
  end.

Ltac branches := unfold GetServicePrincipalToken in *; repeat (run_simpl; branch); run_simpl.

(** The event [e] among the events [H : In e t] of a concrete trace [t]. *)
Ltac in_trace H :=
  unfold trace in H; simpl in H;
  repeat (destruct H as [H | H]; [try discriminate H |]);
  try contradiction;
  try (injection H as H; subst).

(** * Properties *)

(** ** Strings and the endpoint normalisation *)

Lemma length_snoc (s : string) (c : ascii) :
  String.length (snoc s c) = S (String.length s).
Proof.
  unfold snoc. induction s as [|a s IH]; simpl; [reflexivity | now rewrite IH].
Qed.

Lemma get_snoc_last (s : string) (c : ascii) :
  String.get (String.length s) (snoc s c) = Some c.
Proof.
  unfold snoc. induction s as [|a s IH]; simpl; [reflexivity | exact IH].
Qed.

Lemma substring_snoc_init (s : string) (c : ascii) :
  String.substring 0 (String.length s) (snoc s c) = s.
Proof.
  unfold snoc. induction s as [|a s IH]; simpl; [reflexivity | now rewrite IH].
Qed.

Lemma snoc_cases (s : string) :
  s = "" \/ exists t c, s = snoc t c.
Proof.
  induction s as [|a s IH]; [now left | right].
  destruct IH as [-> | (t & c & ->)].
  - exists "", a. reflexivity.
  - exists (String a t), c. reflexivity.
Qed.

Lemma len_snoc (s : string) (c : ascii) : len (snoc s c) - 1 = len s.
Proof. unfold len. rewrite length_snoc. lia. Qed.

Lemma index_last (s : string) (c : ascii) :
  index (snoc s c) (len (snoc s c) - 1) = Returns c.
Proof.
  rewrite len_snoc. unfold index.
  replace (len (snoc s c)) with (len s + 1) by (unfold len; rewrite length_snoc; lia).
  assert (H : 0 <= len s) by (unfold len; lia).
  destruct (0 <=? len s) eqn:E1; [| apply Z.leb_gt in E1; lia].
  destruct (len s <? len s + 1) eqn:E2; [| apply Z.ltb_ge in E2; lia].
  simpl. unfold len at 1. rewrite Nat2Z.id, get_snoc_last. reflexivity.
Qed.

Lemma slice_init (s : string) (c : ascii) :
  slice_to (snoc s c) (len (snoc s c) - 1) = Returns s.
Proof.
  rewrite len_snoc. unfold slice_to.
  replace (len (snoc s c)) with (len s + 1) by (unfold len; rewrite length_snoc; lia).
  assert (H : 0 <= len s) by (unfold len; lia).
  destruct (0 <=? len s) eqn:E1; [| apply Z.leb_gt in E1; lia].
  destruct (len s <=? len s + 1) eqn:E2; [| apply Z.leb_gt in E2; lia].
  simpl. unfold len. rewrite Nat2Z.id, substring_snoc_init. reflexivity.
Qed.

(** One trailing separator is removed. *)
Lemma strip_separator (s : string) :
  stripTrailingSlash (snoc s "/") = Returns s.
Proof.
  unfold stripTrailingSlash. rewrite index_last. simpl. apply slice_init.
Qed.

(** A string that ends in another byte is left as it is. *)
Lemma strip_other (s : string) (c : ascii) :
  c <> "/"%char -> stripTrailingSlash (snoc s c) = Returns (snoc s c).
Proof.
  intros Hc. unfold stripTrailingSlash. rewrite index_last.
  destruct (Ascii.eqb_spec "/"%char c) as [E | _]; [congruence | reflexivity].
Qed.

(** On the empty string the index is [-1]. *)
Lemma strip_empty : stripTrailingSlash "" = Panics (IndexOutOfRange (-1) 0).
Proof. reflexivity. Qed.

(** The normalisation returns on every string but the empty one. *)
Lemma strip_returns (s : string) :
  s <> "" -> exists r, stripTrailingSlash s = Returns r.
Proof.
  intros Hs. destruct (snoc_cases s) as [-> | (t & c & ->)]; [congruence |].
  destruct (Ascii.eqb_spec c "/"%char) as [-> | Hc].
  - exists t. apply strip_separator.
  - exists (snoc t c). now apply strip_other.
Qed.

(** C4, as amended: the normalisation removes exactly one trailing separator
    when there is one and leaves a string ending in any other byte as it
    is; applied twice it gives what it gives once on every endpoint in
    which a byte other than the separator comes before the at most one
    trailing separator. *)
Theorem stripTrailingSlash_once_then_stable :
  (forall s : string, stripTrailingSlash (snoc s "/") = Returns s) /\
  (forall (s : string) (c : ascii),
     c <> "/"%char ->
     stripTrailingSlash (snoc s c) = Returns (snoc s c) /\
     stripTwice (snoc (snoc s c) "/") = stripTrailingSlash (snoc (snoc s c) "/") /\
     stripTwice (snoc s c) = stripTrailingSlash (snoc s c)).
Proof.
  split; [exact strip_separator |].
  intros s c Hc.
  assert (H1 := strip_separator (snoc s c)).
  assert (H2 := strip_other s Hc).
  split; [exact H2 |]. split.
  - unfold stripTwice. rewrite H1, H2. reflexivity.
  - unfold stripTwice. rewrite H2, H2. reflexivity.
Qed.

Lemma stripTrailingSlash_once_then_stable_witness :
  stripTrailingSlash "https://vault.example.com/" = Returns "https://vault.example.com" /\
  "m"%char <> "/"%char /\
  stripTrailingSlash "https://vault.example.com" = Returns "https://vault.example.com" /\
  stripTwice "https://vault.example.com/" = stripTrailingSlash "https://vault.example.com/" /\
  stripTwice "https://vault.example.com" = stripTrailingSlash "https://vault.example.com".
Proof.
  destruct stripTrailingSlash_once_then_stable as [Hstrip Hstable].
  split; [exact (Hstrip "https://vault.example.com") |].
  split; [discriminate |].
  apply (Hstable "https://vault.example.co" "m"%char).
  discriminate.
Defined.

(** C4 as stated fails: with two trailing separators the second application
    removes the second one. *)
Lemma stripTrailingSlash_not_idempotent :
  stripTwice "https://vault.example.com//" <> stripTrailingSlash "https://vault.example.com//".
Proof. vm_compute. discriminate. Qed.

(** A lone separator normalises to the empty string, on which a second
    application panics. *)
Example stripTwice_separator :
  stripTrailingSlash "/" = Returns "" /\ stripTwice "/" = Panics (IndexOutOfRange (-1) 0).
Proof. split; reflexivity. Qed.

(** ** Runs *)

Section RunLaws.
Context {L : GoLibs}.

Lemma bind_ret_l {A B} (a : A) (k : A -> Run B) : bind (ret a) k = k a.
Proof. unfold bind, ret, trace, outcome. simpl. now destruct (k a). Qed.

Lemma bind_ext {A B} (m : Run A) (k k' : A -> Run B) :
  (forall a, k a = k' a) -> bind m k = bind m k'.
Proof.
  intros H. unfold bind. destruct (outcome m); [now rewrite H | reflexivity].
Qed.

Lemma bind_panics {A B} (m : Run A) (k : A -> Run B) (p : PanicValue) :
  outcome m = Panics p -> bind m k = (trace m, Panics p).
Proof. intros H. unfold bind. now rewrite H. Qed.

Lemma bind_returns {A B} (m : Run A) (k : A -> Run B) (a : A) :
  outcome m = Returns a ->
  bind m k = ((trace m ++ trace (k a))%list, outcome (k a)).
Proof. intros H. unfold bind. now rewrite H. Qed.

(** Mapping a pure function over the result of a run keeps its events. *)
Lemma bind_ret_r {A B} (m : Run A) (f : A -> B) :
  bind m (fun a => ret (f a)) =
  (trace m, match outcome m with Returns a => Returns (f a) | Panics p => Panics p end).
Proof.
  unfold bind. destruct (outcome m); [| reflexivity].
  simpl. now rewrite app_nil_r.
Qed.

End RunLaws.

(** ** Environment resolution *)

Section Resolution.
Context {L : GoLibs}.

Lemma ParseAzureEnvironment_empty :
  ParseAzureEnvironment "" = (azure_PublicCloud, None).
Proof. reflexivity. Qed.

Lemma ParseAzureEnvironment_named (cloudName : string) :
  cloudName <> "" ->
  ParseAzureEnvironment cloudName =
  (fst (azure_EnvironmentFromName cloudName),
   option_map lib_err (snd (azure_EnvironmentFromName cloudName))).
Proof.
  intros H. unfold ParseAzureEnvironment.
  destruct (String.eqb_spec cloudName "") as [E | _]; [contradiction |].
  now destruct (azure_EnvironmentFromName cloudName).
Qed.

(** C3: the empty cloud name resolves to the public cloud with no error;
    a non-empty name that the environment table does not recognise resolves
    to the error of the lookup. *)
Theorem ParseAzureEnvironment_resolution :
  ParseAzureEnvironment "" = (azure_PublicCloud, None) /\
  forall (cloudName : string) (env : Environment) (unknown : lib_error),
    cloudName <> "" ->
    azure_EnvironmentFromName cloudName = (env, Some unknown) ->
    ParseAzureEnvironment cloudName = (env, Some (lib_err unknown)).
Proof.
  split; [reflexivity |].
  intros cloudName env unknown Hne Hlookup.
  rewrite ParseAzureEnvironment_named by assumption.
  now rewrite Hlookup.
Qed.

End Resolution.

Lemma ParseAzureEnvironment_resolution_witness :
  ParseAzureEnvironment (L := Stub.brokerDown) "" = (Stub.PublicCloud, None) /\
  "unknown-xyz" <> "" /\
  Stub.EnvironmentFromName "unknown-xyz" =
    (Stub.zeroEnvironment, Some (Stub.NoSuchCloud "UNKNOWN-XYZ")) /\
  ParseAzureEnvironment (L := Stub.brokerDown) "unknown-xyz" =
    (Stub.zeroEnvironment, Some (lib_err (L := Stub.brokerDown) (Stub.NoSuchCloud "UNKNOWN-XYZ"))).
Proof.
  destruct (ParseAzureEnvironment_resolution (L := Stub.brokerDown)) as [Hempty Hnamed].
  split; [exact Hempty |].
  split; [discriminate |].
  split; [reflexivity |].
  apply Hnamed; [discriminate | reflexivity].
Defined.

#[local] Arguments String.append : simpl never.

(** ** The channels of [GetServicePrincipalToken] *)

Section Channel.
Context {L : GoLibs}.
Variables (tenantId : string) (env : Environment) (resource : string).
Variables (aADClientSecret aADClientID podname podns : string).

(** A request is sent on the delegated path only, after the OAuth
    configuration and the request were built, and it is the request of the
    source: a GET of the broker endpoint with the two pod headers. *)
Lemma sent_request (useIntegratedIdentity : bool) (req : Request) :
  In (EvHttpDo req)
     (trace (GetServicePrincipalToken tenantId env resource useIntegratedIdentity
               aADClientSecret aADClientID podname podns)) ->
  useIntegratedIdentity = true /\
  exists oauthConfig req0,
    adal_NewOAuthConfig (ActiveDirectoryEndpoint env) tenantId = inl oauthConfig /\
    http_NewRequest "GET" (nmiendpoint ++ "?resource=" ++ resource) = inl req0 /\
    req = Header_Add (Header_Add req0 podnsheader podns) podnameheader podname.
Proof.
  intros Hin. branches.
  all: repeat match goal with
       | H : _ \/ _ |- _ => destruct H
       | H : False |- _ => destruct H
       end; try discriminate.
  all: match goal with H : EvHttpDo _ = EvHttpDo _ |- _ => injection H as <- end.
  all: split; [reflexivity |]; eexists _, _; repeat split; eassumption.
Qed.

Section Delegated.
Variables (oauthConfig : OAuthConfig) (req0 : Request).
Hypothesis Hconfig :
  adal_NewOAuthConfig (ActiveDirectoryEndpoint env) tenantId = inl oauthConfig.
Hypothesis Hrequest :
  http_NewRequest "GET" (nmiendpoint ++ "?resource=" ++ resource) = inl req0.

Local Abbreviation req :=
  (Header_Add (Header_Add req0 podnsheader podns) podnameheader podname).
Local Abbreviation announce :=
  (EvGlog 0 "azure: using managed identity extension to retrieve access token").
Local Abbreviation delegated :=
  (GetServicePrincipalToken tenantId env resource true
     aADClientSecret aADClientID podname podns).

(** The broker cannot be reached. *)
Lemma delegated_transport_error (err : lib_error) :
  client_Do req = inr err ->
  delegated = ([announce; EvHttpDo req], Returns (None, Some (lib_err err))).
Proof.
  intros Hdo. unfold GetServicePrincipalToken.
  rewrite Hconfig. cbv zeta. rewrite Hrequest, Hdo. reflexivity.
Qed.

(** Any status but 200. *)
Lemma delegated_status (status : Z) (body : Body) :
  client_Do req = inl (status, body) ->
  status <> StatusOK ->
  delegated = ([announce; EvHttpDo req; EvBodyClose],
               Returns (None, Some (BrokerResponseError status))).
Proof.
  intros Hdo Hstatus. unfold GetServicePrincipalToken.
  rewrite Hconfig. cbv zeta. rewrite Hrequest, Hdo.
  destruct (Z.eqb_spec status StatusOK) as [E | _]; [contradiction | reflexivity].
Qed.

(** Status 200 and a body that decodes to the nil pointer. *)
Lemma delegated_null (body : Body) (bodyBytes : string) :
  client_Do req = inl (StatusOK, body) ->
  ioutil_ReadAll body = inl bodyBytes ->
  json_Unmarshal bodyBytes = inl None ->
  delegated = ([announce; EvHttpDo req; EvBodyClose], Panics NilPointerDereference).
Proof.
  intros Hdo Hread Hjson. unfold GetServicePrincipalToken.
  rewrite Hconfig. cbv zeta. rewrite Hrequest, Hdo. simpl.
  rewrite Hread, Hjson. reflexivity.
Qed.

(** Status 200 and a body that decodes to a response: both values are
    printed, and only the client identifier is looked at before the token
    is built. *)
Lemma delegated_decoded (body : Body) (bodyBytes : string) (nmiResp : NMIResponse) :
  client_Do req = inl (StatusOK, body) ->
  ioutil_ReadAll body = inl bodyBytes ->
  json_Unmarshal bodyBytes = inl (Some nmiResp) ->
  delegated =
  ([announce; EvHttpDo req;
    EvStdout (nl ++ " accesstoken: " ++ AccessToken (Token_ nmiResp) ++ nl);
    EvStdout (nl ++ " clientid: " ++ ClientID nmiResp ++ nl);
    EvBodyClose],
   Returns
     (if String.eqb (ClientID nmiResp) "" then (None, Some BrokerIncompleteResponse)
      else from_lib (adal_NewServicePrincipalTokenFromManualToken
                       oauthConfig (ClientID nmiResp) resource (Token_ nmiResp)))).
Proof.
  intros Hdo Hread Hjson. unfold GetServicePrincipalToken.
  rewrite Hconfig. cbv zeta. rewrite Hrequest, Hdo. simpl.
  rewrite Hread, Hjson.
  destruct (String.eqb (ClientID nmiResp) "") eqn:E; run_simpl; rewrite E; simpl.
  - reflexivity.
  - now destruct (adal_NewServicePrincipalTokenFromManualToken _ _ _ _).
Qed.

End Delegated.

(** The static path: no request, and the secret decides. *)
Lemma static_no_secret :
  GetServicePrincipalToken tenantId env resource false "" aADClientID podname podns =
  ([], Returns
         (None,
          Some match adal_NewOAuthConfig (ActiveDirectoryEndpoint env) tenantId with
               | inl _ => MissingCredential aADClientID
               | inr err => fmt_Errorf ("creating the OAuth config: " ++ lib_Error err)
               end)).
Proof.
  unfold GetServicePrincipalToken.
  now destruct (adal_NewOAuthConfig (ActiveDirectoryEndpoint env) tenantId).
Qed.

Lemma len_pos (s : string) : s <> "" -> (0 <? len s) = true.
Proof.
  intros Hs. destruct s; [congruence |]. unfold len. simpl String.length.
  apply Z.ltb_lt. lia.
Qed.

Lemma static_secret (oauthConfig : OAuthConfig) :
  adal_NewOAuthConfig (ActiveDirectoryEndpoint env) tenantId = inl oauthConfig ->
  aADClientSecret <> "" ->
  GetServicePrincipalToken tenantId env resource false
    aADClientSecret aADClientID podname podns =
  ([EvGlog 2 "azure: using client_id+client_secret to retrieve access token"],
   Returns (from_lib (adal_NewServicePrincipalToken
                        oauthConfig aADClientID aADClientSecret resource))).
Proof.
  intros Hconfig Hsecret. unfold GetServicePrincipalToken.
  rewrite Hconfig, (len_pos Hsecret). reflexivity.
Qed.

(** A run that returns no error returns a token. *)
Lemma no_error_some_token (useIntegratedIdentity : bool) :
  outcome (GetServicePrincipalToken tenantId env resource useIntegratedIdentity
             aADClientSecret aADClientID podname podns) <> Returns (None, None).
Proof.
  branches; try discriminate.
  all: intros H; injection H as ->; discriminate.
Qed.

End Channel.

(** ** The entry points *)

Section EntryPoints.
Context {L : GoLibs}.
Variables (cloudName tenantId : string) (useIntegratedIdentity : bool).
Variables (aADClientSecret aADClientID podname podns : string).

Lemma GetManagementToken_refines (grantType : OAuthGrantType) :
  GetManagementToken grantType cloudName tenantId useIntegratedIdentity
    aADClientSecret aADClientID podname podns =
  acquireAuthorizer managementResource cloudName tenantId useIntegratedIdentity
    aADClientSecret aADClientID podname podns.
Proof.
  unfold GetManagementToken, acquireAuthorizer, managementResource.
  destruct (ParseAzureEnvironment cloudName) as [env [err |]]; [reflexivity |].
  change (eval (Returns (ResourceManagerEndpoint env))) with (ret (ResourceManagerEndpoint env)).
  rewrite bind_ret_l. apply bind_ext. now intros [spt [err |]].
Qed.

Lemma GetKeyvaultToken_refines (grantType : OAuthGrantType) :
  GetKeyvaultToken grantType cloudName tenantId useIntegratedIdentity
    aADClientSecret aADClientID podname podns =
  acquireAuthorizer secretsStoreResource cloudName tenantId useIntegratedIdentity
    aADClientSecret aADClientID podname podns.
Proof.
  unfold GetKeyvaultToken, acquireAuthorizer, secretsStoreResource.
  destruct (ParseAzureEnvironment cloudName) as [env [err |]]; [reflexivity |].
  apply bind_ext. intros kvEndPoint. apply bind_ext. now intros [spt [err |]].
Qed.

Section Acquire.
Variable selectResource : Environment -> Outcome string.

Local Abbreviation acquired :=
  (acquireAuthorizer selectResource cloudName tenantId useIntegratedIdentity
     aADClientSecret aADClientID podname podns).

Lemma acquire_unresolved (env : Environment) (err : error) :
  ParseAzureEnvironment cloudName = (env, Some err) ->
  acquired = ([], Returns (None, Some err)).
Proof. intros H. unfold acquireAuthorizer. now rewrite H. Qed.

Lemma acquire_panics (env : Environment) (p : PanicValue) :
  ParseAzureEnvironment cloudName = (env, None) ->
  selectResource env = Panics p ->
  acquired = ([], Panics p).
Proof.
  intros H Hp. unfold acquireAuthorizer. now rewrite H, Hp.
Qed.

Lemma acquire_resolved (env : Environment) (resource : string) :
  ParseAzureEnvironment cloudName = (env, None) ->
  selectResource env = Returns resource ->
  acquired =
  let channel := GetServicePrincipalToken tenantId env resource useIntegratedIdentity
                   aADClientSecret aADClientID podname podns in
  (trace channel,
   match outcome channel with
   | Returns r => Returns (wrap_credential r)
   | Panics p => Panics p
   end).
Proof.
  intros H Hr. unfold acquireAuthorizer. rewrite H, Hr.
  change (eval (Returns resource)) with (ret resource).
  rewrite bind_ret_l. apply bind_ret_r.
Qed.

(** A request sent by an entry point was sent by the channel, for the
    resource selected in the resolved environment. *)
Lemma acquire_sent (req : Request) :
  In (EvHttpDo req) (trace acquired) ->
  exists env resource,
    ParseAzureEnvironment cloudName = (env, None) /\
    selectResource env = Returns resource /\
    In (EvHttpDo req)
       (trace (GetServicePrincipalToken tenantId env resource useIntegratedIdentity
                 aADClientSecret aADClientID podname podns)).
Proof.
  intros Hin.
  destruct (ParseAzureEnvironment cloudName) as [env [err |]] eqn:Henv.
  - rewrite (acquire_unresolved Henv) in Hin. destruct Hin.
  - destruct (selectResource env) as [resource | p] eqn:Hsel.
    + rewrite (acquire_resolved Henv Hsel) in Hin.
      exists env, resource. now repeat split.
    + rewrite (acquire_panics Henv Hsel) in Hin. destruct Hin.
Qed.

End Acquire.
End EntryPoints.

(** ** The claims about the channels *)

Section ChannelClaims.
Context {L : GoLibs}.

(** A broker answer with a status other than 200 ends the channel with the
    status error. *)
Lemma channel_status_error
    (tenantId : string) (env : Environment) (resource : string)
    (useIntegratedIdentity : bool) (aADClientSecret aADClientID podname podns : string)
    (req : Request) (status : Z) (body : Body) :
  In (EvHttpDo req)
     (trace (GetServicePrincipalToken tenantId env resource useIntegratedIdentity
               aADClientSecret aADClientID podname podns)) ->
  client_Do req = inl (status, body) ->
  status <> StatusOK ->
  outcome (GetServicePrincipalToken tenantId env resource useIntegratedIdentity
             aADClientSecret aADClientID podname podns) =
  Returns (None, Some (BrokerResponseError status)).
Proof.
  intros Hin Hdo Hstatus.
  apply sent_request in Hin as (-> & oauthConfig & req0 & Hc & Hr & ->).
  now erewrite delegated_status by eassumption.
Qed.

Lemma entry_status_error
    (selectResource : Environment -> Outcome string)
    (cloudName tenantId : string) (useIntegratedIdentity : bool)
    (aADClientSecret aADClientID podname podns : string)
    (req : Request) (status : Z) (body : Body) :
  In (EvHttpDo req)
     (trace (acquireAuthorizer selectResource cloudName tenantId useIntegratedIdentity
               aADClientSecret aADClientID podname podns)) ->
  client_Do req = inl (status, body) ->
  status <> StatusOK ->
  outcome (acquireAuthorizer selectResource cloudName tenantId useIntegratedIdentity
             aADClientSecret aADClientID podname podns) =
  Returns (None, Some (BrokerResponseError status)).
Proof.
  intros Hin Hdo Hstatus.
  apply acquire_sent in Hin as (env & resource & Henv & Hsel & Hsent).
  erewrite acquire_resolved by eassumption. cbv zeta.
  unfold outcome at 1. simpl.
  now erewrite channel_status_error by eassumption.
Qed.

(** C1, as amended: on the static path with an empty client secret nothing
    is sent, logged or printed, and the call fails: with the error naming
    the client identifier when the OAuth configuration of the tenant is
    built, and with the wrapped configuration error when it is not. *)
Theorem static_empty_secret_fails
    (tenantId : string) (env : Environment) (resource aADClientID podname podns : string) :
  let run := GetServicePrincipalToken tenantId env resource false ""
               aADClientID podname podns in
  trace run = [] /\
  network_calls (trace run) = [] /\
  (forall oauthConfig,
     adal_NewOAuthConfig (ActiveDirectoryEndpoint env) tenantId = inl oauthConfig ->
     outcome run = Returns (None, Some (MissingCredential aADClientID))) /\
  (forall err,
     adal_NewOAuthConfig (ActiveDirectoryEndpoint env) tenantId = inr err ->
     outcome run =
     Returns (None, Some (fmt_Errorf ("creating the OAuth config: " ++ lib_Error err)))).
Proof.
  cbv zeta. rewrite static_no_secret. unfold trace, outcome. simpl.
  repeat split; intros x Hx; now rewrite Hx.
Qed.

(** C5: when the broker answers the request of the delegated path with a
    status other than 200, the channel logs, sends, closes the body and
    fails with the status error carrying that code; both entry points do
    the same for their resource and return a nil authorizer together with
    that same error. *)
Theorem broker_status_error_propagates
    (tenantId : string) (env : Environment)
    (aADClientSecret aADClientID podname podns : string) (oauthConfig : OAuthConfig) :
  adal_NewOAuthConfig (ActiveDirectoryEndpoint env) tenantId = inl oauthConfig ->
  (forall resource req0 status body,
     http_NewRequest "GET" (nmiendpoint ++ "?resource=" ++ resource) = inl req0 ->
     client_Do (Header_Add (Header_Add req0 podnsheader podns) podnameheader podname)
       = inl (status, body) ->
     status <> StatusOK ->
     GetServicePrincipalToken tenantId env resource true
       aADClientSecret aADClientID podname podns =
     ([EvGlog 0 "azure: using managed identity extension to retrieve access token";
       EvHttpDo (Header_Add (Header_Add req0 podnsheader podns) podnameheader podname);
       EvBodyClose],
      Returns (None, Some (BrokerResponseError status)))) /\
  (forall grantType cloudName req0 status body,
     ParseAzureEnvironment cloudName = (env, None) ->
     http_NewRequest "GET"
       (nmiendpoint ++ "?resource=" ++ ResourceManagerEndpoint env) = inl req0 ->
     client_Do (Header_Add (Header_Add req0 podnsheader podns) podnameheader podname)
       = inl (status, body) ->
     status <> StatusOK ->
     GetManagementToken grantType cloudName tenantId true
       aADClientSecret aADClientID podname podns =
     ([EvGlog 0 "azure: using managed identity extension to retrieve access token";
       EvHttpDo (Header_Add (Header_Add req0 podnsheader podns) podnameheader podname);
       EvBodyClose],
      Returns (None, Some (BrokerResponseError status)))) /\
  (forall grantType cloudName kvEndPoint req0 status body,
     ParseAzureEnvironment cloudName = (env, None) ->
     stripTrailingSlash (KeyVaultEndpoint env) = Returns kvEndPoint ->
     http_NewRequest "GET" (nmiendpoint ++ "?resource=" ++ kvEndPoint) = inl req0 ->
     client_Do (Header_Add (Header_Add req0 podnsheader podns) podnameheader podname)
       = inl (status, body) ->
     status <> StatusOK ->
     GetKeyvaultToken grantType cloudName tenantId true
       aADClientSecret aADClientID podname podns =
     ([EvGlog 0 "azure: using managed identity extension to retrieve access token";
       EvHttpDo (Header_Add (Header_Add req0 podnsheader podns) podnameheader podname);
       EvBodyClose],
      Returns (None, Some (BrokerResponseError status)))).
Proof.
  intros Hconfig. split; [| split].
  - intros resource req0 status body Hrequest Hdo Hstatus.
    now erewrite delegated_status by eassumption.
  - intros grantType cloudName req0 status body Henv Hrequest Hdo Hstatus.
    rewrite GetManagementToken_refines.
    erewrite acquire_resolved by (try eassumption; reflexivity). cbv zeta.
    now erewrite delegated_status by eassumption.
  - intros grantType cloudName kvEndPoint req0 status body Henv Hkv Hrequest Hdo Hstatus.
    rewrite GetKeyvaultToken_refines.
    erewrite acquire_resolved by (try eassumption; exact Hkv). cbv zeta.
    now erewrite delegated_status by eassumption.
Qed.


(** An empty client identifier is refused ... *)
Lemma empty_clientid_incomplete
    (tenantId : string) (env : Environment) (resource : string)
    (useIntegratedIdentity : bool) (aADClientSecret aADClientID podname podns : string)
    (req : Request) (body : Body) (bodyBytes : string) (token : Token) :
  let run := GetServicePrincipalToken tenantId env resource useIntegratedIdentity
               aADClientSecret aADClientID podname podns in
  In (EvHttpDo req) (trace run) ->
  client_Do req = inl (StatusOK, body) ->
  ioutil_ReadAll body = inl bodyBytes ->
  json_Unmarshal bodyBytes = inl (Some (mkNMIResponse token "")) ->
  outcome run = Returns (None, Some BrokerIncompleteResponse).
Proof.
  intros run Hin Hdo Hread Hjson. subst run.
  apply sent_request in Hin as (-> & oauthConfig & req0 & Hc & Hr & ->).
  now erewrite delegated_decoded by eassumption.
Qed.

(** ... and the access token is not looked at: with a client identifier,
    the token goes to the library whatever its access token is. *)
Lemma access_token_unchecked
    (tenantId : string) (env : Environment) (resource : string)
    (useIntegratedIdentity : bool) (aADClientSecret aADClientID podname podns : string)
    (req : Request) (body : Body) (bodyBytes : string) (nmiResp : NMIResponse) :
  let run := GetServicePrincipalToken tenantId env resource useIntegratedIdentity
               aADClientSecret aADClientID podname podns in
  In (EvHttpDo req) (trace run) ->
  client_Do req = inl (StatusOK, body) ->
  ioutil_ReadAll body = inl bodyBytes ->
  json_Unmarshal bodyBytes = inl (Some nmiResp) ->
  ClientID nmiResp <> "" ->
  exists oauthConfig,
    outcome run =
      Returns (from_lib (adal_NewServicePrincipalTokenFromManualToken
                           oauthConfig (ClientID nmiResp) resource (Token_ nmiResp))).
Proof.
  intros run Hin Hdo Hread Hjson Hid. subst run.
  apply sent_request in Hin as (-> & oauthConfig & req0 & Hc & Hr & ->).
  exists oauthConfig.
  erewrite delegated_decoded by eassumption. simpl.
  now destruct (String.eqb_spec (ClientID nmiResp) "").
Qed.

(** Whatever the broker's token is, its access token is written to standard
    output. *)
Lemma access_token_printed
    (tenantId : string) (env : Environment) (resource : string)
    (useIntegratedIdentity : bool) (aADClientSecret aADClientID podname podns : string)
    (req : Request) (body : Body) (bodyBytes : string) (nmiResp : NMIResponse) :
  let run := GetServicePrincipalToken tenantId env resource useIntegratedIdentity
               aADClientSecret aADClientID podname podns in
  In (EvHttpDo req) (trace run) ->
  client_Do req = inl (StatusOK, body) ->
  ioutil_ReadAll body = inl bodyBytes ->
  json_Unmarshal bodyBytes = inl (Some nmiResp) ->
  In (EvStdout (nl ++ " accesstoken: " ++ AccessToken (Token_ nmiResp) ++ nl)) (trace run).
Proof.
  intros run Hin Hdo Hread Hjson. subst run.
  apply sent_request in Hin as (-> & oauthConfig & req0 & Hc & Hr & ->).
  erewrite delegated_decoded by eassumption.
  unfold trace. simpl. auto.
Qed.

End ChannelClaims.

(** ** The claims about the entry points *)

Section EntryClaims.
Context {L : GoLibs}.

(** C7, as amended: the two entry points are one orchestration,
    resolution, channel selection, acquisition and wrapping, run on two
    resources: the management endpoint of the resolved environment, and
    its key vault endpoint after normalisation.  With a client secret and
    no delegated identity each returns the authorizer around the token that
    the library builds for its resource, or the error of the library.  The
    two authorizers differ when the two resources differ and the library
    builds no token for two resources; when the two resources are the same
    string the two calls are the same run. *)
Theorem entry_points_differ_in_resource
    (grantType : OAuthGrantType) (cloudName tenantId : string)
    (useIntegratedIdentity : bool) (aADClientSecret aADClientID podname podns : string) :
  GetManagementToken grantType cloudName tenantId useIntegratedIdentity
    aADClientSecret aADClientID podname podns =
  acquireAuthorizer managementResource cloudName tenantId useIntegratedIdentity
    aADClientSecret aADClientID podname podns /\
  GetKeyvaultToken grantType cloudName tenantId useIntegratedIdentity
    aADClientSecret aADClientID podname podns =
  acquireAuthorizer secretsStoreResource cloudName tenantId useIntegratedIdentity
    aADClientSecret aADClientID podname podns /\
  forall env oauthConfig kvEndPoint,
    ParseAzureEnvironment cloudName = (env, None) ->
    adal_NewOAuthConfig (ActiveDirectoryEndpoint env) tenantId = inl oauthConfig ->
    stripTrailingSlash (KeyVaultEndpoint env) = Returns kvEndPoint ->
    useIntegratedIdentity = false ->
    aADClientSecret <> "" ->
    let management :=
      GetManagementToken grantType cloudName tenantId useIntegratedIdentity
        aADClientSecret aADClientID podname podns in
    let keyvault :=
      GetKeyvaultToken grantType cloudName tenantId useIntegratedIdentity
        aADClientSecret aADClientID podname podns in
    let built (resource : string) :=
      adal_NewServicePrincipalToken oauthConfig aADClientID aADClientSecret resource in
    (forall spt,
       built (ResourceManagerEndpoint env) = inl spt ->
       management = ([EvGlog 2 "azure: using client_id+client_secret to retrieve access token"], Returns (Some (NewBearerAuthorizer (Some spt)), None))) /\
    (forall err,
       built (ResourceManagerEndpoint env) = inr err ->
       management = ([EvGlog 2 "azure: using client_id+client_secret to retrieve access token"], Returns (None, Some (lib_err err)))) /\
    (forall spt,
       built kvEndPoint = inl spt ->
       keyvault = ([EvGlog 2 "azure: using client_id+client_secret to retrieve access token"], Returns (Some (NewBearerAuthorizer (Some spt)), None))) /\
    (forall err,
       built kvEndPoint = inr err ->
       keyvault = ([EvGlog 2 "azure: using client_id+client_secret to retrieve access token"], Returns (None, Some (lib_err err)))) /\
    (ResourceManagerEndpoint env = kvEndPoint -> management = keyvault) /\
    (ResourceManagerEndpoint env <> kvEndPoint ->
     (forall resource resource' spt,
        built resource = inl spt -> built resource' = inl spt -> resource = resource') ->
     forall authorizer authorizer',
       outcome management = Returns (Some authorizer, None) ->
       outcome keyvault = Returns (Some authorizer', None) ->
       authorizer <> authorizer').
Proof.
  split; [apply GetManagementToken_refines |].
  split; [apply GetKeyvaultToken_refines |].
  intros env oauthConfig kvEndPoint Henv Hconfig Hkv -> Hsecret. cbv zeta.
  assert (Hmanagement :
    GetManagementToken grantType cloudName tenantId false
      aADClientSecret aADClientID podname podns =
    ([EvGlog 2 "azure: using client_id+client_secret to retrieve access token"],
     Returns (wrap_credential (from_lib (adal_NewServicePrincipalToken
                oauthConfig aADClientID aADClientSecret (ResourceManagerEndpoint env)))))).
  { rewrite GetManagementToken_refines.
    erewrite acquire_resolved by (try eassumption; reflexivity). cbv zeta.
    now erewrite static_secret by eassumption. }
  assert (Hkeyvault :
    GetKeyvaultToken grantType cloudName tenantId false
      aADClientSecret aADClientID podname podns =
    ([EvGlog 2 "azure: using client_id+client_secret to retrieve access token"],
     Returns (wrap_credential (from_lib (adal_NewServicePrincipalToken
                oauthConfig aADClientID aADClientSecret kvEndPoint))))).
  { rewrite GetKeyvaultToken_refines.
    erewrite acquire_resolved by (try eassumption; exact Hkv). cbv zeta.
    now erewrite static_secret by eassumption. }
  rewrite Hmanagement, Hkeyvault.
  repeat split.
  - intros spt Hspt. now rewrite Hspt.
  - intros err Herr. now rewrite Herr.
  - intros spt Hspt. now rewrite Hspt.
  - intros err Herr. now rewrite Herr.
  - intros Hsame. now rewrite Hsame.
  - intros Hdiffer Hone authorizer authorizer'. unfold outcome. simpl.
    destruct (adal_NewServicePrincipalToken oauthConfig aADClientID aADClientSecret
                (ResourceManagerEndpoint env)) as [spt | err] eqn:Hspt;
      [| discriminate].
    destruct (adal_NewServicePrincipalToken oauthConfig aADClientID aADClientSecret
                kvEndPoint) as [spt' | err'] eqn:Hspt';
      [| intros _; discriminate].
    unfold wrap_credential. simpl.
    intros H H'. injection H as <-. injection H' as <-.
    intros Hsame. injection Hsame as ->.
    apply Hdiffer. eapply Hone; eassumption.
Qed.

(** C10: the grant type is not read: two calls that differ in it only are
    the same run, events, authorizer and error; and [AuthGrantType] is the
    service principal grant type. *)
Theorem grantType_is_dead_input
    (grantType grantType' : OAuthGrantType) (cloudName tenantId : string)
    (useIntegratedIdentity : bool) (aADClientSecret aADClientID podname podns : string) :
  GetManagementToken grantType cloudName tenantId useIntegratedIdentity
    aADClientSecret aADClientID podname podns =
  GetManagementToken grantType' cloudName tenantId useIntegratedIdentity
    aADClientSecret aADClientID podname podns /\
  GetKeyvaultToken grantType cloudName tenantId useIntegratedIdentity
    aADClientSecret aADClientID podname podns =
  GetKeyvaultToken grantType' cloudName tenantId useIntegratedIdentity
    aADClientSecret aADClientID podname podns /\
  AuthGrantType = OAuthGrantTypeServicePrincipal.
Proof.
  rewrite !GetManagementToken_refines, !GetKeyvaultToken_refines.
  repeat split.
Qed.

(** An environment whose key vault endpoint is empty makes
    [GetKeyvaultToken] panic before anything else happens. *)
Lemma GetKeyvaultToken_empty_endpoint
    (grantType : OAuthGrantType) (cloudName tenantId : string)
    (useIntegratedIdentity : bool) (aADClientSecret aADClientID podname podns : string)
    (env : Environment) :
  ParseAzureEnvironment cloudName = (env, None) ->
  KeyVaultEndpoint env = "" ->
  GetKeyvaultToken grantType cloudName tenantId useIntegratedIdentity
    aADClientSecret aADClientID podname podns =
  ([], Panics (IndexOutOfRange (-1) 0)).
Proof.
  intros Henv Hkv. rewrite GetKeyvaultToken_refines.
  eapply acquire_panics; [eassumption |].
  unfold secretsStoreResource. now rewrite Hkv.
Qed.

(** [GetManagementToken] indexes nothing: it panics only with the channel. *)
Lemma GetManagementToken_panics_with_channel
    (grantType : OAuthGrantType) (cloudName tenantId : string)
    (useIntegratedIdentity : bool) (aADClientSecret aADClientID podname podns : string)
    (p : PanicValue) :
  outcome (GetManagementToken grantType cloudName tenantId useIntegratedIdentity
             aADClientSecret aADClientID podname podns) = Panics p ->
  p = NilPointerDereference /\ useIntegratedIdentity = true.
Proof.
  rewrite GetManagementToken_refines.
  destruct (ParseAzureEnvironment cloudName) as [env [err |]] eqn:Henv.
  - erewrite acquire_unresolved by eassumption. discriminate.
  - erewrite acquire_resolved by (try eassumption; reflexivity). cbv zeta.
    unfold outcome at 1. simpl.
    branches; try discriminate.
    all: intros H; split; congruence.
Qed.

End EntryClaims.

(** ** Runs on the test double *)

Lemma static_empty_secret_fails_witness :
  let run := GetServicePrincipalToken (L := Stub.brokerDown) "tenant" Stub.PublicCloud
               "https://management.azure.com/" false "" "app" "pod" "ns" in
  trace run = [] /\
  network_calls (trace run) = [] /\
  Stub.NewOAuthConfig "https://login.microsoftonline.com/" "tenant" =
    inl (Stub.mkOAuthConfig "https://login.microsoftonline.com/" "tenant") /\
  outcome run = Returns (None, Some (MissingCredential (L := Stub.brokerDown) "app")).
Proof.
  destruct (static_empty_secret_fails (L := Stub.brokerDown) "tenant" Stub.PublicCloud
              "https://management.azure.com/" "app" "pod" "ns") as (Ht & Hn & Hok & _).
  cbv zeta. split; [exact Ht |]. split; [exact Hn |]. split; [reflexivity |].
  apply (Hok (Stub.mkOAuthConfig "https://login.microsoftonline.com/" "tenant")).
  reflexivity.
Defined.

(** C1 as stated fails: a tenant that makes an unparsable URL ends the call
    before the secret is looked at, with the configuration error. *)
Lemma static_empty_secret_bad_tenant :
  let run := GetServicePrincipalToken (L := Stub.brokerDown) "%zz" Stub.PublicCloud
               "https://management.azure.com/" false "" "app" "pod" "ns" in
  outcome run <> Returns (None, Some (MissingCredential (L := Stub.brokerDown) "app")) /\
  outcome run =
    Returns (None, Some (fmt_Errorf (L := Stub.brokerDown)
      "creating the OAuth config: parse %zz/oauth2/authorize?api-version=1.0: invalid URL escape")).
Proof.
  cbv zeta.
  assert (Hrun :
    outcome (GetServicePrincipalToken (L := Stub.brokerDown) "%zz" Stub.PublicCloud
               "https://management.azure.com/" false "" "app" "pod" "ns") =
    Returns (None, Some (fmt_Errorf (L := Stub.brokerDown)
      "creating the OAuth config: parse %zz/oauth2/authorize?api-version=1.0: invalid URL escape")))
    by reflexivity.
  split; [| exact Hrun].
  rewrite Hrun. unfold MissingCredential. intros H. injection H as H. discriminate H.
Qed.

Lemma broker_status_error_propagates_witness :
  let announce :=
    EvGlog (L := Stub.broker404) 0
      "azure: using managed identity extension to retrieve access token" in
  let failed :=
    Returns (@None Stub.StubToken, Some (BrokerResponseError (L := Stub.broker404) 404)) in
  let refused :=
    Returns (@None (BearerAuthorizer (L := Stub.broker404)),
             Some (BrokerResponseError (L := Stub.broker404) 404)) in
  Stub.NewOAuthConfig "https://login.microsoftonline.com/" "tenant" = inl Stub.publicConfig /\
  ParseAzureEnvironment (L := Stub.broker404) "" = (Stub.PublicCloud, None) /\
  stripTrailingSlash "https://vault.azure.net/" = Returns "https://vault.azure.net" /\
  404 <> StatusOK /\
  GetServicePrincipalToken (L := Stub.broker404) "tenant" Stub.PublicCloud
    "https://vault.azure.net" true "" "" "pod" "ns" =
  ([announce; EvHttpDo (L := Stub.broker404) (Stub.requestFor "https://vault.azure.net");
    EvBodyClose], failed) /\
  GetManagementToken (L := Stub.broker404) OAuthGrantTypeServicePrincipal
    "" "tenant" true "" "" "pod" "ns" =
  ([announce;
    EvHttpDo (L := Stub.broker404) (Stub.requestFor "https://management.azure.com/");
    EvBodyClose], refused) /\
  GetKeyvaultToken (L := Stub.broker404) OAuthGrantTypeServicePrincipal
    "" "tenant" true "" "" "pod" "ns" =
  ([announce; EvHttpDo (L := Stub.broker404) (Stub.requestFor "https://vault.azure.net");
    EvBodyClose], refused).
Proof.
  cbv zeta.
  destruct (@broker_status_error_propagates Stub.broker404 "tenant" Stub.PublicCloud
              "" "" "pod" "ns" Stub.publicConfig eq_refl)
    as (Hchannel & Hmanagement & Hkeyvault).
  split; [reflexivity |]. split; [reflexivity |]. split; [reflexivity |].
  split; [discriminate |].
  split; [| split].
  - apply (Hchannel "https://vault.azure.net"
             (Stub.mkRequest "GET"
                "http://localhost:2579/host/token/?resource=https://vault.azure.net" [])
             404 ""); [reflexivity | reflexivity | discriminate].
  - apply (Hmanagement OAuthGrantTypeServicePrincipal ""
             (Stub.mkRequest "GET"
                "http://localhost:2579/host/token/?resource=https://management.azure.com/" [])
             404 ""); [reflexivity | reflexivity | reflexivity | discriminate].
  - apply (Hkeyvault OAuthGrantTypeServicePrincipal "" "https://vault.azure.net"
             (Stub.mkRequest "GET"
                "http://localhost:2579/host/token/?resource=https://vault.azure.net" [])
             404 "");
      [reflexivity | reflexivity | reflexivity | reflexivity | discriminate].
Defined.



(** The credential of that run, in full: the client identifier is [abc],
    there is no secret, and the token is the broker's. *)
Example brokerOK_credential :
  outcome (GetServicePrincipalToken (L := Stub.brokerOK) "tenant" Stub.PublicCloud
             "https://vault.azure.net" true "" "" "pod" "ns") =
  Returns (Some (Stub.mkSPT
                   (Stub.mkOAuthConfig "https://login.microsoftonline.com/" "tenant")
                   "abc" "https://vault.azure.net" Stub.ServicePrincipalNoSecret
                   (Stub.brokerToken "eyJ0eXAi")),
           None).
Proof. reflexivity. Qed.

Example brokerNoClientID_incomplete :
  outcome (GetServicePrincipalToken (L := Stub.brokerNoClientID) "tenant" Stub.PublicCloud
             "https://vault.azure.net" true "" "" "pod" "ns") =
  Returns (None, Some (BrokerIncompleteResponse (L := Stub.brokerNoClientID))).
Proof. reflexivity. Qed.

Example brokerDown_transport_error :
  GetServicePrincipalToken (L := Stub.brokerDown) "tenant" Stub.PublicCloud
    "https://vault.azure.net" true "" "" "pod" "ns" =
  ([EvGlog 0 "azure: using managed identity extension to retrieve access token";
    EvHttpDo (L := Stub.brokerDown)
      (Stub.mkRequest "GET"
         "http://localhost:2579/host/token/?resource=https://vault.azure.net"
         [("podns", "ns"); ("podname", "pod")])],
   Returns (None, Some (lib_err (L := Stub.brokerDown) Stub.ConnectionRefused))).
Proof. reflexivity. Qed.

(** C2 at a broker answer with an empty access token: the address of the
    local [token] is never nil, so only the client identifier is tested and
    the channel returns a credential whose access token is empty. *)
Theorem empty_access_token_accepted :
  let run := GetServicePrincipalToken (L := Stub.brokerNoAccessToken) "tenant"
               Stub.PublicCloud "https://vault.azure.net" true "" "" "pod" "ns" in
  outcome run =
    Returns (Some (Stub.mkSPT
                     (Stub.mkOAuthConfig "https://login.microsoftonline.com/" "tenant")
                     "abc" "https://vault.azure.net" Stub.ServicePrincipalNoSecret
                     (Stub.brokerToken "")),
             None) /\
  AccessToken (Stub.brokerToken "") = "" /\
  outcome run <> Returns (None, Some (BrokerIncompleteResponse (L := Stub.brokerNoAccessToken))).
Proof.
  cbv zeta.
  assert (Hrun :
    outcome (GetServicePrincipalToken (L := Stub.brokerNoAccessToken) "tenant"
               Stub.PublicCloud "https://vault.azure.net" true "" "" "pod" "ns") =
    Returns (Some (Stub.mkSPT
                     (Stub.mkOAuthConfig "https://login.microsoftonline.com/" "tenant")
                     "abc" "https://vault.azure.net" Stub.ServicePrincipalNoSecret
                     (Stub.brokerToken "")),
             None))
    by reflexivity.
  split; [exact Hrun |]. split; [reflexivity |].
  rewrite Hrun. discriminate.
Qed.

Lemma entry_points_differ_in_resource_witness :
  let built (resource : string) :=
    Stub.mkSPT Stub.publicConfig "app" resource
      (Stub.ServicePrincipalTokenSecret "s3cret") Stub.zeroToken in
  let logged :=
    [EvGlog (L := Stub.brokerDown) 2
       "azure: using client_id+client_secret to retrieve access token"] in
  ParseAzureEnvironment (L := Stub.brokerDown) "" = (Stub.PublicCloud, None) /\
  Stub.NewOAuthConfig "https://login.microsoftonline.com/" "tenant" = inl Stub.publicConfig /\
  stripTrailingSlash "https://vault.azure.net/" = Returns "https://vault.azure.net" /\
  "s3cret" <> "" /\
  "https://management.azure.com/" <> "https://vault.azure.net" /\
  GetManagementToken (L := Stub.brokerDown) OAuthGrantTypeServicePrincipal
    "" "tenant" false "s3cret" "app" "pod" "ns" =
  (logged,
   Returns (Some (NewBearerAuthorizer (L := Stub.brokerDown)
                    (Some (built "https://management.azure.com/"))), None)) /\
  GetKeyvaultToken (L := Stub.brokerDown) OAuthGrantTypeServicePrincipal
    "" "tenant" false "s3cret" "app" "pod" "ns" =
  (logged,
   Returns (Some (NewBearerAuthorizer (L := Stub.brokerDown)
                    (Some (built "https://vault.azure.net"))), None)) /\
  NewBearerAuthorizer (L := Stub.brokerDown) (Some (built "https://management.azure.com/"))
  <> NewBearerAuthorizer (L := Stub.brokerDown) (Some (built "https://vault.azure.net")).
Proof.
  cbv zeta.
  assert (Hdiffer : "https://management.azure.com/" <> "https://vault.azure.net")
    by discriminate.
  assert (Hone : forall resource resource' (spt : Stub.StubToken),
            Stub.NewServicePrincipalToken Stub.publicConfig "app" "s3cret" resource = inl spt ->
            Stub.NewServicePrincipalToken Stub.publicConfig "app" "s3cret" resource' = inl spt ->
            resource = resource').
  { intros resource resource' spt.
    unfold Stub.NewServicePrincipalToken, Stub.NewServicePrincipalTokenWithSecret. simpl.
    destruct (String.eqb resource ""); [discriminate |].
    destruct (String.eqb resource' ""); [intros _; discriminate |].
    intros H H'. rewrite <- H in H'. now injection H'. }
  destruct (entry_points_differ_in_resource (L := Stub.brokerDown)
              OAuthGrantTypeServicePrincipal "" "tenant" false "s3cret" "app" "pod" "ns")
    as (_ & _ & Hstatic).
  destruct (Hstatic Stub.PublicCloud Stub.publicConfig "https://vault.azure.net"
              eq_refl eq_refl eq_refl eq_refl
              (fun H : "s3cret" = "" => eq_ind "s3cret"
                 (fun s => match s with EmptyString => False | String _ _ => True end)
                 I "" H))
    as (Hmanagement & _ & Hkeyvault & _ & _ & Hdistinct).
  split; [reflexivity |]. split; [reflexivity |]. split; [reflexivity |].
  split; [discriminate |]. split; [exact Hdiffer |].
  split; [exact (Hmanagement _ eq_refl) |].
  split; [exact (Hkeyvault _ eq_refl) |].
  apply (Hdistinct Hdiffer Hone); reflexivity.
Defined.

(** C7 as stated fails: in a stack whose key vault endpoint is its
    management endpoint followed by the separator, both entry points ask
    for the same resource and are the same run, with the same authorizer. *)
Lemma entry_points_same_resource :
  ParseAzureEnvironment (L := Stub.stackWithSameEndpoints) "AzureStackCloud" =
    (Stub.SameEndpoints, None) /\
  managementResource Stub.SameEndpoints = Returns "https://same.example" /\
  secretsStoreResource Stub.SameEndpoints = Returns "https://same.example" /\
  GetManagementToken (L := Stub.stackWithSameEndpoints) OAuthGrantTypeServicePrincipal
    "AzureStackCloud" "tenant" false "s3cret" "app" "pod" "ns" =
  GetKeyvaultToken (L := Stub.stackWithSameEndpoints) OAuthGrantTypeServicePrincipal
    "AzureStackCloud" "tenant" false "s3cret" "app" "pod" "ns" /\
  outcome (GetKeyvaultToken (L := Stub.stackWithSameEndpoints)
             OAuthGrantTypeServicePrincipal
             "AzureStackCloud" "tenant" false "s3cret" "app" "pod" "ns") =
  Returns (Some (NewBearerAuthorizer (L := Stub.stackWithSameEndpoints)
                   (Some (Stub.mkSPT
                            (Stub.mkOAuthConfig "https://login.windows.net/" "tenant")
                            "app" "https://same.example"
                            (Stub.ServicePrincipalTokenSecret "s3cret") Stub.zeroToken))),
           None).
Proof. repeat split. Qed.

(** The two authorizers of that run are built for the two resources. *)
Example static_authorizers_resources :
  outcome (GetManagementToken (L := Stub.brokerDown) OAuthGrantTypeServicePrincipal
             "" "tenant" false "s3cret" "app" "pod" "ns") =
    Returns (Some (NewBearerAuthorizer (L := Stub.brokerDown) (Some (Stub.mkSPT
               (Stub.mkOAuthConfig "https://login.microsoftonline.com/" "tenant")
               "app" "https://management.azure.com/"
               (Stub.ServicePrincipalTokenSecret "s3cret") Stub.zeroToken))), None) /\
  outcome (GetKeyvaultToken (L := Stub.brokerDown) OAuthGrantTypeServicePrincipal
             "" "tenant" false "s3cret" "app" "pod" "ns") =
    Returns (Some (NewBearerAuthorizer (L := Stub.brokerDown) (Some (Stub.mkSPT
               (Stub.mkOAuthConfig "https://login.microsoftonline.com/" "tenant")
               "app" "https://vault.azure.net"
               (Stub.ServicePrincipalTokenSecret "s3cret") Stub.zeroToken))), None).
Proof. split; reflexivity. Qed.

(** C8 at an environment without a key vault endpoint: [GetKeyvaultToken]
    indexes the empty string at [-1] and panics, whatever the other
    arguments are. *)
Theorem GetKeyvaultToken_panics_without_endpoint
    (grantType : OAuthGrantType) (tenantId : string) (useIntegratedIdentity : bool)
    (aADClientSecret aADClientID podname podns : string) :
  KeyVaultEndpoint Stub.StackCloud = "" /\
  ParseAzureEnvironment (L := Stub.brokerOK) "AzureStackCloud" = (Stub.StackCloud, None) /\
  stripTrailingSlash "" = Panics (IndexOutOfRange (-1) 0) /\
  GetKeyvaultToken (L := Stub.brokerOK) grantType "AzureStackCloud" tenantId
    useIntegratedIdentity aADClientSecret aADClientID podname podns =
  ([], Panics (IndexOutOfRange (-1) 0)).
Proof.
  split; [reflexivity |]. split; [reflexivity |]. split; [reflexivity |].
  now apply GetKeyvaultToken_empty_endpoint with (env := Stub.StackCloud).
Qed.

(** A second panic: a broker that answers 200 with the body [null]. *)
Example brokerNull_panics :
  outcome (GetManagementToken (L := Stub.brokerNull) OAuthGrantTypeServicePrincipal
             "" "tenant" true "" "" "pod" "ns") = Panics NilPointerDereference.
Proof. reflexivity. Qed.

(** C9 at a broker answer with any access token: the access token is
    written to standard output, between the two other effects of the run. *)
Theorem access_token_on_stdout (accessToken : string) :
  let broker := Stub.answering 200 "token-and-clientid"
                  (Some (mkNMIResponse (Stub.brokerToken accessToken) "abc")) in
  let run := GetServicePrincipalToken (L := broker) "tenant" Stub.PublicCloud
               "https://vault.azure.net" true "" "" "pod" "ns" in
  In (EvStdout (L := broker) (nl ++ " accesstoken: " ++ accessToken ++ nl)) (trace run) /\
  stdout (trace run) =
    (nl ++ " accesstoken: " ++ accessToken ++ nl) ++ (nl ++ " clientid: " ++ "abc" ++ nl) ++ "".
Proof.
  cbv zeta. split.
  - apply (@access_token_printed
             (Stub.answering 200 "token-and-clientid"
                (Some (mkNMIResponse (Stub.brokerToken accessToken) "abc")))
             "tenant" Stub.PublicCloud "https://vault.azure.net" true "" "" "pod" "ns"
             (Stub.mkRequest "GET"
                "http://localhost:2579/host/token/?resource=https://vault.azure.net"
                [("podns", "ns"); ("podname", "pod")])
             "token-and-clientid" "token-and-clientid"
             (mkNMIResponse (Stub.brokerToken accessToken) "abc"));
      try reflexivity.
    unfold trace. simpl. right. left. reflexivity.
  - reflexivity.
Qed.

(** * Further properties of oauth.go *)

(** ** The remaining branches of the delegated path *)

Section DelegatedFailures.
Context {L : GoLibs}.
Variables (tenantId : string) (env : Environment) (resource : string).
Variables (aADClientSecret aADClientID podname podns : string).

(** The OAuth configuration is refused: nothing has happened yet, on either
    path. *)
Lemma config_error (useIntegratedIdentity : bool) (err : lib_error) :
  adal_NewOAuthConfig (ActiveDirectoryEndpoint env) tenantId = inr err ->
  GetServicePrincipalToken tenantId env resource useIntegratedIdentity
    aADClientSecret aADClientID podname podns =
  ([], Returns (None, Some (fmt_Errorf ("creating the OAuth config: " ++ lib_Error err)))).
Proof. intros H. unfold GetServicePrincipalToken. now rewrite H. Qed.

Variables (oauthConfig : OAuthConfig).
Hypothesis Hconfig :
  adal_NewOAuthConfig (ActiveDirectoryEndpoint env) tenantId = inl oauthConfig.

Local Abbreviation announce :=
  (EvGlog 0 "azure: using managed identity extension to retrieve access token").
Local Abbreviation delegated :=
  (GetServicePrincipalToken tenantId env resource true
     aADClientSecret aADClientID podname podns).

(** The request cannot be built. *)
Lemma delegated_request_error (err : lib_error) :
  http_NewRequest "GET" (nmiendpoint ++ "?resource=" ++ resource) = inr err ->
  delegated = ([announce], Returns (None, Some (lib_err err))).
Proof.
  intros Hrequest. unfold GetServicePrincipalToken.
  rewrite Hconfig. cbv zeta. now rewrite Hrequest.
Qed.

Variable req0 : Request.
Hypothesis Hrequest :
  http_NewRequest "GET" (nmiendpoint ++ "?resource=" ++ resource) = inl req0.

Local Abbreviation req :=
  (Header_Add (Header_Add req0 podnsheader podns) podnameheader podname).

(** The body of a 200 answer cannot be read. *)
Lemma delegated_read_error (body : Body) (err : lib_error) :
  client_Do req = inl (StatusOK, body) ->
  ioutil_ReadAll body = inr err ->
  delegated = ([announce; EvHttpDo req; EvBodyClose], Returns (None, Some (lib_err err))).
Proof.
  intros Hdo Hread. unfold GetServicePrincipalToken.
  rewrite Hconfig. cbv zeta. rewrite Hrequest, Hdo. simpl. now rewrite Hread.
Qed.

(** The body of a 200 answer is not the JSON of a response. *)
Lemma delegated_decode_error (body : Body) (bodyBytes : string) (err : lib_error) :
  client_Do req = inl (StatusOK, body) ->
  ioutil_ReadAll body = inl bodyBytes ->
  json_Unmarshal bodyBytes = inr err ->
  delegated = ([announce; EvHttpDo req; EvBodyClose], Returns (None, Some (lib_err err))).
Proof.
  intros Hdo Hread Hjson. unfold GetServicePrincipalToken.
  rewrite Hconfig. cbv zeta. rewrite Hrequest, Hdo. simpl. now rewrite Hread, Hjson.
Qed.

End DelegatedFailures.

(** ** What a call returns *)

Section Results.
Context {L : GoLibs}.

(** The two shapes of what the channel returns. *)
Lemma channel_result_shape
    (tenantId : string) (env : Environment) (resource : string)
    (useIntegratedIdentity : bool) (aADClientSecret aADClientID podname podns : string)
    (token : option ServicePrincipalToken) (err : option error) :
  outcome (GetServicePrincipalToken tenantId env resource useIntegratedIdentity
             aADClientSecret aADClientID podname podns) = Returns (token, err) ->
  (exists spt, token = Some spt /\ err = None) \/
  (token = None /\ exists e, err = Some e).
Proof.
  branches; intros H; try discriminate H.
  all: injection H as <- <-; eauto.
Qed.

(** X1: a call of [GetServicePrincipalToken] that returns, returns a token
    and a nil error, or a nil token and an error: never both, never
    neither. *)
Theorem channel_token_xor_error
    (tenantId : string) (env : Environment) (resource : string)
    (useIntegratedIdentity : bool) (aADClientSecret aADClientID podname podns : string)
    (token : option ServicePrincipalToken) (err : option error) :
  outcome (GetServicePrincipalToken tenantId env resource useIntegratedIdentity
             aADClientSecret aADClientID podname podns) = Returns (token, err) ->
  (exists spt, token = Some spt /\ err = None) \/
  (token = None /\ exists e, err = Some e).
Proof. apply channel_result_shape. Qed.

(** The result of an entry point is the wrapped result of the channel. *)
Lemma wrap_credential_shape
    (r : option ServicePrincipalToken * option error)
    (authorizer : Authorizer) (err : option error) :
  ((exists spt, fst r = Some spt /\ snd r = None) \/
   (fst r = None /\ exists e, snd r = Some e)) ->
  wrap_credential r = (authorizer, err) ->
  (exists spt, authorizer = Some (NewBearerAuthorizer (Some spt)) /\ err = None) \/
  (authorizer = None /\ exists e, err = Some e).
Proof.
  unfold wrap_credential.
  intros [(spt & Ht & He) | (Ht & e & He)]; rewrite He; intros H; injection H as <- <-.
  - left. exists spt. now rewrite Ht.
  - right. eauto.
Qed.

Lemma acquire_shape
    (selectResource : Environment -> Outcome string)
    (cloudName tenantId : string) (useIntegratedIdentity : bool)
    (aADClientSecret aADClientID podname podns : string)
    (authorizer : Authorizer) (err : option error) :
  outcome (acquireAuthorizer selectResource cloudName tenantId useIntegratedIdentity
             aADClientSecret aADClientID podname podns) = Returns (authorizer, err) ->
  (exists spt, authorizer = Some (NewBearerAuthorizer (Some spt)) /\ err = None) \/
  (authorizer = None /\ exists e, err = Some e).
Proof.
  destruct (ParseAzureEnvironment cloudName) as [env [e |]] eqn:Henv.
  - erewrite acquire_unresolved by eassumption.
    intros H. injection H as <- <-. eauto.
  - destruct (selectResource env) as [resource | p] eqn:Hsel.
    + erewrite acquire_resolved by eassumption. cbv zeta. unfold outcome at 1. simpl.
      destruct (outcome (GetServicePrincipalToken tenantId env resource
                  useIntegratedIdentity aADClientSecret aADClientID podname podns))
        as [[token e] | p] eqn:Hrun; [| discriminate].
      intros H. injection H as H.
      eapply wrap_credential_shape; [| exact H].
      simpl. eapply channel_result_shape. exact Hrun.
    + erewrite acquire_panics by eassumption. discriminate.
Qed.

(** X2: an entry point that returns, returns a bearer authorizer around a
    token that is not nil together with a nil error, or a nil authorizer
    and an error. *)
Theorem entry_authorizer_xor_error
    (grantType : OAuthGrantType) (cloudName tenantId : string)
    (useIntegratedIdentity : bool) (aADClientSecret aADClientID podname podns : string)
    (authorizer : Authorizer) (err : option error) :
  (outcome (GetManagementToken grantType cloudName tenantId useIntegratedIdentity
              aADClientSecret aADClientID podname podns) = Returns (authorizer, err) ->
   (exists spt, authorizer = Some (NewBearerAuthorizer (Some spt)) /\ err = None) \/
   (authorizer = None /\ exists e, err = Some e)) /\
  (outcome (GetKeyvaultToken grantType cloudName tenantId useIntegratedIdentity
              aADClientSecret aADClientID podname podns) = Returns (authorizer, err) ->
   (exists spt, authorizer = Some (NewBearerAuthorizer (Some spt)) /\ err = None) \/
   (authorizer = None /\ exists e, err = Some e)).
Proof.
  rewrite GetManagementToken_refines, GetKeyvaultToken_refines.
  split; apply acquire_shape.
Qed.

End Results.

(** ** What a call does *)

Section Effects.
Context {L : GoLibs}.

(** The events of an entry point are those of the channel, when it gets
    that far. *)
Lemma acquire_trace
    (selectResource : Environment -> Outcome string)
    (cloudName tenantId : string) (useIntegratedIdentity : bool)
    (aADClientSecret aADClientID podname podns : string) :
  trace (acquireAuthorizer selectResource cloudName tenantId useIntegratedIdentity
           aADClientSecret aADClientID podname podns) = [] \/
  exists env resource,
    ParseAzureEnvironment cloudName = (env, None) /\
    selectResource env = Returns resource /\
    trace (acquireAuthorizer selectResource cloudName tenantId useIntegratedIdentity
             aADClientSecret aADClientID podname podns) =
    trace (GetServicePrincipalToken tenantId env resource useIntegratedIdentity
             aADClientSecret aADClientID podname podns).
Proof.
  destruct (ParseAzureEnvironment cloudName) as [env [e |]] eqn:Henv.
  - left. now erewrite acquire_unresolved by eassumption.
  - destruct (selectResource env) as [resource | p] eqn:Hsel.
    + right. exists env, resource.
      split; [reflexivity |]. split; [assumption |].
      now erewrite acquire_resolved by eassumption.
    + left. now erewrite acquire_panics by eassumption.
Qed.

Lemma channel_one_request
    (tenantId : string) (env : Environment) (resource : string)
    (useIntegratedIdentity : bool) (aADClientSecret aADClientID podname podns : string) :
  (length (network_calls
     (trace (GetServicePrincipalToken tenantId env resource useIntegratedIdentity
               aADClientSecret aADClientID podname podns))) <= 1)%nat.
Proof. branches; auto. Qed.

Lemma acquire_one_request
    (selectResource : Environment -> Outcome string)
    (cloudName tenantId : string) (useIntegratedIdentity : bool)
    (aADClientSecret aADClientID podname podns : string) :
  (length (network_calls
     (trace (acquireAuthorizer selectResource cloudName tenantId useIntegratedIdentity
               aADClientSecret aADClientID podname podns))) <= 1)%nat.
Proof.
  destruct (acquire_trace selectResource cloudName tenantId useIntegratedIdentity
              aADClientSecret aADClientID podname podns)
    as [-> | (env & resource & _ & _ & ->)].
  - simpl. auto.
  - apply channel_one_request.
Qed.

(** X3: whatever its arguments are, a call of [GetServicePrincipalToken],
    [GetManagementToken] or [GetKeyvaultToken] sends at most one request. *)
Theorem at_most_one_request
    (grantType : OAuthGrantType) (cloudName tenantId : string) (env : Environment)
    (resource : string) (useIntegratedIdentity : bool)
    (aADClientSecret aADClientID podname podns : string) :
  (length (network_calls
     (trace (GetServicePrincipalToken tenantId env resource useIntegratedIdentity
               aADClientSecret aADClientID podname podns))) <= 1)%nat /\
  (length (network_calls
     (trace (GetManagementToken grantType cloudName tenantId useIntegratedIdentity
               aADClientSecret aADClientID podname podns))) <= 1)%nat /\
  (length (network_calls
     (trace (GetKeyvaultToken grantType cloudName tenantId useIntegratedIdentity
               aADClientSecret aADClientID podname podns))) <= 1)%nat.
Proof.
  rewrite GetManagementToken_refines, GetKeyvaultToken_refines.
  split; [apply channel_one_request |].
  split; apply acquire_one_request.
Qed.

Lemma channel_static_silent
    (tenantId : string) (env : Environment) (resource : string)
    (aADClientSecret aADClientID podname podns : string) :
  let t := trace (GetServicePrincipalToken tenantId env resource false
                    aADClientSecret aADClientID podname podns) in
  network_calls t = [] /\ stdout t = "" /\ ~ In EvBodyClose t.
Proof.
  cbv zeta. branches; repeat split; auto; intros [H | H]; (discriminate H || exact H).
Qed.

Lemma acquire_static_silent
    (selectResource : Environment -> Outcome string)
    (cloudName tenantId : string)
    (aADClientSecret aADClientID podname podns : string) :
  let t := trace (acquireAuthorizer selectResource cloudName tenantId false
                    aADClientSecret aADClientID podname podns) in
  network_calls t = [] /\ stdout t = "" /\ ~ In EvBodyClose t.
Proof.
  cbv zeta.
  destruct (acquire_trace selectResource cloudName tenantId false
              aADClientSecret aADClientID podname podns)
    as [-> | (env & resource & _ & _ & ->)].
  - repeat split; auto.
  - apply channel_static_silent.
Qed.

(** X4: without integrated identity no request is sent, nothing is written
    to standard output and no response body is closed, whether the client
    secret is empty or not. *)
Theorem static_path_sends_nothing
    (grantType : OAuthGrantType) (cloudName tenantId : string) (env : Environment)
    (resource : string) (aADClientSecret aADClientID podname podns : string) :
  let channel := trace (GetServicePrincipalToken tenantId env resource false
                          aADClientSecret aADClientID podname podns) in
  let management := trace (GetManagementToken grantType cloudName tenantId false
                             aADClientSecret aADClientID podname podns) in
  let keyvault := trace (GetKeyvaultToken grantType cloudName tenantId false
                           aADClientSecret aADClientID podname podns) in
  (network_calls channel = [] /\ stdout channel = "" /\ ~ In EvBodyClose channel) /\
  (network_calls management = [] /\ stdout management = "" /\ ~ In EvBodyClose management) /\
  (network_calls keyvault = [] /\ stdout keyvault = "" /\ ~ In EvBodyClose keyvault).
Proof.
  cbv zeta. rewrite GetManagementToken_refines, GetKeyvaultToken_refines.
  split; [apply channel_static_silent |].
  split; apply acquire_static_silent.
Qed.

(** A request that was sent fixes the run of the entry point to the run of
    the channel. *)
Lemma acquire_sent_run
    (selectResource : Environment -> Outcome string)
    (cloudName tenantId : string) (useIntegratedIdentity : bool)
    (aADClientSecret aADClientID podname podns : string) (req : Request) :
  In (EvHttpDo req)
     (trace (acquireAuthorizer selectResource cloudName tenantId useIntegratedIdentity
               aADClientSecret aADClientID podname podns)) ->
  exists env resource,
    ParseAzureEnvironment cloudName = (env, None) /\
    selectResource env = Returns resource /\
    In (EvHttpDo req)
       (trace (GetServicePrincipalToken tenantId env resource useIntegratedIdentity
                 aADClientSecret aADClientID podname podns)) /\
    acquireAuthorizer selectResource cloudName tenantId useIntegratedIdentity
      aADClientSecret aADClientID podname podns =
    (trace (GetServicePrincipalToken tenantId env resource useIntegratedIdentity
              aADClientSecret aADClientID podname podns),
     match outcome (GetServicePrincipalToken tenantId env resource useIntegratedIdentity
                      aADClientSecret aADClientID podname podns) with
     | Returns r => Returns (wrap_credential r)
     | Panics p => Panics p
     end).
Proof.
  intros Hin.
  destruct (acquire_sent _ _ _ _ _ _ _ _ _ Hin) as (env & resource & Henv & Hsel & Hsent).
  exists env, resource. repeat split; try assumption.
  now erewrite acquire_resolved by eassumption.
Qed.

End Effects.

(** ** The branches of the channel *)

Section BranchesOfTheChannel.
Context {L : GoLibs}.

(** Every run of [GetServicePrincipalToken] is the run of one branch. *)
Lemma channel_run_spec
    (tenantId : string) (env : Environment) (resource : string)
    (useIntegratedIdentity : bool) (aADClientSecret aADClientID podname podns : string) :
  ChannelRun tenantId env resource useIntegratedIdentity
    aADClientSecret aADClientID podname podns
    (GetServicePrincipalToken tenantId env resource useIntegratedIdentity
       aADClientSecret aADClientID podname podns).
Proof.
  destruct (adal_NewOAuthConfig (ActiveDirectoryEndpoint env) tenantId)
    as [oauthConfig | err] eqn:Hconfig.
  2: { erewrite config_error by eassumption. now apply run_config_error. }
  destruct useIntegratedIdentity.
  - destruct (http_NewRequest "GET" (nmiendpoint ++ "?resource=" ++ resource))
      as [req0 | err] eqn:Hrequest.
    2: { erewrite delegated_request_error by eassumption.
         eapply run_request_error; eauto. }
    destruct (client_Do (brokerRequest req0 podname podns))
      as [[status body] | err] eqn:Hdo.
    2: { erewrite delegated_transport_error by eassumption.
         eapply run_transport_error; eauto. }
    destruct (Z.eq_dec status StatusOK) as [-> | Hstatus].
    2: { erewrite delegated_status by eassumption. eapply run_status; eauto. }
    destruct (ioutil_ReadAll body) as [bodyBytes | err] eqn:Hread.
    2: { erewrite delegated_read_error by eassumption. eapply run_read_error; eauto. }
    destruct (json_Unmarshal bodyBytes) as [[nmiResp |] | err] eqn:Hjson.
    + erewrite delegated_decoded by eassumption.
      destruct (String.eqb_spec (ClientID nmiResp) "") as [Hid | Hid].
      * eapply run_incomplete; eauto.
      * eapply run_manual_token; eauto.
    + erewrite delegated_null by eassumption. eapply run_null; eauto.
    + erewrite delegated_decode_error by eassumption. eapply run_decode_error; eauto.
  - destruct (string_dec aADClientSecret "") as [-> | Hsecret].
    + rewrite static_no_secret, Hconfig. eapply run_no_credentials; eauto.
    + erewrite static_secret by eassumption. eapply run_client_secret; eauto.
Qed.

Lemma call_refines
    (entry : EntryPoint) (grantType : OAuthGrantType) (cloudName tenantId : string)
    (useIntegratedIdentity : bool) (aADClientSecret aADClientID podname podns : string) :
  call entry grantType cloudName tenantId useIntegratedIdentity
    aADClientSecret aADClientID podname podns =
  acquireAuthorizer (resourceOf entry) cloudName tenantId useIntegratedIdentity
    aADClientSecret aADClientID podname podns.
Proof.
  destruct entry; [apply GetManagementToken_refines | apply GetKeyvaultToken_refines].
Qed.

(** The run of an entry point that got as far as the channel. *)
Lemma call_resolved
    (entry : EntryPoint) (grantType : OAuthGrantType) (cloudName tenantId : string)
    (useIntegratedIdentity : bool) (aADClientSecret aADClientID podname podns : string)
    (env : Environment) (resource : string) :
  ParseAzureEnvironment cloudName = (env, None) ->
  resourceOf entry env = Returns resource ->
  call entry grantType cloudName tenantId useIntegratedIdentity
    aADClientSecret aADClientID podname podns =
  (trace (GetServicePrincipalToken tenantId env resource useIntegratedIdentity
            aADClientSecret aADClientID podname podns),
   match outcome (GetServicePrincipalToken tenantId env resource useIntegratedIdentity
                    aADClientSecret aADClientID podname podns) with
   | Returns r => Returns (wrap_credential r)
   | Panics p => Panics p
   end).
Proof.
  intros Henv Hsel. rewrite call_refines.
  now erewrite acquire_resolved by eassumption.
Qed.

(** An entry point that sent a request got as far as the channel. *)
Lemma call_sent
    (entry : EntryPoint) (grantType : OAuthGrantType) (cloudName tenantId : string)
    (useIntegratedIdentity : bool) (aADClientSecret aADClientID podname podns : string)
    (req : Request) :
  In (EvHttpDo req)
     (trace (call entry grantType cloudName tenantId useIntegratedIdentity
               aADClientSecret aADClientID podname podns)) ->
  exists env resource,
    ParseAzureEnvironment cloudName = (env, None) /\
    resourceOf entry env = Returns resource /\
    In (EvHttpDo req)
       (trace (GetServicePrincipalToken tenantId env resource useIntegratedIdentity
                 aADClientSecret aADClientID podname podns)).
Proof. rewrite call_refines. apply acquire_sent. Qed.

End BranchesOfTheChannel.

(** ** The answer of the broker *)

Section BrokerAnswer.
Context {L : GoLibs}.

Lemma channel_body_closed
    (tenantId : string) (env : Environment) (resource : string)
    (useIntegratedIdentity : bool) (aADClientSecret aADClientID podname podns : string)
    (req : Request) :
  In (EvHttpDo req)
     (trace (GetServicePrincipalToken tenantId env resource useIntegratedIdentity
               aADClientSecret aADClientID podname podns)) ->
  match client_Do req with
  | inl _ =>
      exists t,
        trace (GetServicePrincipalToken tenantId env resource useIntegratedIdentity
                 aADClientSecret aADClientID podname podns) = (t ++ [EvBodyClose])%list /\
        ~ In EvBodyClose t
  | inr _ =>
      ~ In EvBodyClose
          (trace (GetServicePrincipalToken tenantId env resource useIntegratedIdentity
                    aADClientSecret aADClientID podname podns))
  end.
Proof.
  destruct (channel_run_spec tenantId env resource useIntegratedIdentity
              aADClientSecret aADClientID podname podns);
    intros Hin; in_trace Hin;
    match goal with H : client_Do _ = _ |- _ => rewrite H end.
  1: { intros Hc. in_trace Hc. }
  all: unfold trace; simpl.
  all: match goal with
       | |- exists t, (?a :: ?b :: ?rest) = _ /\ _ =>
           exists (removelast (a :: b :: rest))
       end.
  all: split; [reflexivity |]; simpl; intros Hc; in_trace Hc.
Qed.

(** X5: when the broker answered the request, with whatever status and
    body, the body of the response is closed, once and as the last thing
    the call does, also when the call panics; when no answer came there is
    nothing to close.  This holds of [GetServicePrincipalToken] and of
    both entry points. *)
Theorem response_body_closed_last
    (tenantId : string) (env : Environment) (resource : string)
    (useIntegratedIdentity : bool) (aADClientSecret aADClientID podname podns : string)
    (entry : EntryPoint) (grantType : OAuthGrantType) (cloudName : string)
    (req : Request) :
  let channel := trace (GetServicePrincipalToken tenantId env resource
                          useIntegratedIdentity aADClientSecret aADClientID podname podns) in
  let whole := trace (call entry grantType cloudName tenantId useIntegratedIdentity
                        aADClientSecret aADClientID podname podns) in
  (In (EvHttpDo req) channel ->
   match client_Do req with
   | inl _ => exists t, channel = (t ++ [EvBodyClose])%list /\ ~ In EvBodyClose t
   | inr _ => ~ In EvBodyClose channel
   end) /\
  (In (EvHttpDo req) whole ->
   match client_Do req with
   | inl _ => exists t, whole = (t ++ [EvBodyClose])%list /\ ~ In EvBodyClose t
   | inr _ => ~ In EvBodyClose whole
   end).
Proof.
  cbv zeta. split; [apply channel_body_closed |].
  intros Hin.
  destruct (call_sent _ _ _ _ _ _ _ _ _ _ Hin) as (env' & resource' & Henv & Hsel & Hsent).
  erewrite call_resolved by eassumption.
  unfold trace at 1 3. simpl fst.
  now apply channel_body_closed.
Qed.

End BrokerAnswer.

Section BrokerFailures.
Context {L : GoLibs}.

Lemma channel_broker_failures
    (tenantId : string) (env : Environment) (resource : string)
    (useIntegratedIdentity : bool) (aADClientSecret aADClientID podname podns : string)
    (req : Request) :
  In (EvHttpDo req)
     (trace (GetServicePrincipalToken tenantId env resource useIntegratedIdentity
               aADClientSecret aADClientID podname podns)) ->
  forall err : lib_error,
    client_Do req = inr err \/
    (exists body, client_Do req = inl (StatusOK, body) /\ ioutil_ReadAll body = inr err) \/
    (exists body bodyBytes,
       client_Do req = inl (StatusOK, body) /\ ioutil_ReadAll body = inl bodyBytes /\
       json_Unmarshal bodyBytes = inr err) ->
    outcome (GetServicePrincipalToken tenantId env resource useIntegratedIdentity
               aADClientSecret aADClientID podname podns) =
    Returns (None, Some (lib_err err)).
Proof.
  intros Hin err Hfail.
  apply sent_request in Hin as (-> & oauthConfig & req0 & Hc & Hr & ->).
  destruct Hfail as [Hdo | [(body & Hdo & Hread) | (body & bodyBytes & Hdo & Hread & Hjson)]].
  - now erewrite delegated_transport_error by eassumption.
  - now erewrite delegated_read_error by eassumption.
  - now erewrite delegated_decode_error by eassumption.
Qed.

(** X6: an error of the transport, of reading the body of a 200 answer, or
    of decoding it, is what [GetServicePrincipalToken] returns, as it is
    and with a nil token; the entry points return it as it is with a nil
    authorizer. *)
Theorem broker_failures_pass_unchanged
    (tenantId : string) (env : Environment) (resource : string)
    (useIntegratedIdentity : bool) (aADClientSecret aADClientID podname podns : string)
    (entry : EntryPoint) (grantType : OAuthGrantType) (cloudName : string)
    (req : Request) (err : lib_error) :
  client_Do req = inr err \/
  (exists body, client_Do req = inl (StatusOK, body) /\ ioutil_ReadAll body = inr err) \/
  (exists body bodyBytes,
     client_Do req = inl (StatusOK, body) /\ ioutil_ReadAll body = inl bodyBytes /\
     json_Unmarshal bodyBytes = inr err) ->
  (In (EvHttpDo req)
      (trace (GetServicePrincipalToken tenantId env resource useIntegratedIdentity
                aADClientSecret aADClientID podname podns)) ->
   outcome (GetServicePrincipalToken tenantId env resource useIntegratedIdentity
              aADClientSecret aADClientID podname podns) =
   Returns (None, Some (lib_err err))) /\
  (In (EvHttpDo req)
      (trace (call entry grantType cloudName tenantId useIntegratedIdentity
                aADClientSecret aADClientID podname podns)) ->
   outcome (call entry grantType cloudName tenantId useIntegratedIdentity
              aADClientSecret aADClientID podname podns) =
   Returns (None, Some (lib_err err))).
Proof.
  intros Hfail. split; intros Hin.
  - eapply channel_broker_failures; eassumption.
  - apply call_sent in Hin as (env' & resource' & Henv & Hsel & Hsent).
    erewrite call_resolved by eassumption. unfold outcome at 1. simpl snd.
    now erewrite channel_broker_failures by eassumption.
Qed.

End BrokerFailures.

(** ** Standard output *)

Section StandardOutput.
Context {L : GoLibs}.

Lemma channel_stdout
    (tenantId : string) (env : Environment) (resource : string)
    (useIntegratedIdentity : bool) (aADClientSecret aADClientID podname podns : string) :
  let t := trace (GetServicePrincipalToken tenantId env resource useIntegratedIdentity
                    aADClientSecret aADClientID podname podns) in
  stdout t = "" \/
  exists req body bodyBytes nmiResp,
    In (EvHttpDo req) t /\
    client_Do req = inl (StatusOK, body) /\
    ioutil_ReadAll body = inl bodyBytes /\
    json_Unmarshal bodyBytes = inl (Some nmiResp) /\
    stdout t = (nl ++ " accesstoken: " ++ AccessToken (Token_ nmiResp) ++ nl) ++
               (nl ++ " clientid: " ++ ClientID nmiResp ++ nl) ++ "".
Proof.
  cbv zeta.
  destruct (channel_run_spec tenantId env resource useIntegratedIdentity
              aADClientSecret aADClientID podname podns);
    try (left; reflexivity).
  all: right; exists (brokerRequest req0 podname podns), body, bodyBytes, nmiResp.
  all: repeat split; try assumption; unfold trace; simpl; auto.
Qed.

(** The answer of the broker was a 200 whose body decodes to [nmiResp]. *)
Lemma decoded_stdout
    (tenantId : string) (env : Environment) (resource : string)
    (aADClientSecret aADClientID podname podns : string) (nmiResp : NMIResponse) :
  (exists oauthConfig req0 body bodyBytes,
     adal_NewOAuthConfig (ActiveDirectoryEndpoint env) tenantId = inl oauthConfig /\
     http_NewRequest "GET" (nmiendpoint ++ "?resource=" ++ resource) = inl req0 /\
     client_Do (brokerRequest req0 podname podns) = inl (StatusOK, body) /\
     ioutil_ReadAll body = inl bodyBytes /\
     json_Unmarshal bodyBytes = inl (Some nmiResp)) ->
  stdout (trace (GetServicePrincipalToken tenantId env resource true
                   aADClientSecret aADClientID podname podns)) =
  (nl ++ " accesstoken: " ++ AccessToken (Token_ nmiResp) ++ nl) ++
  (nl ++ " clientid: " ++ ClientID nmiResp ++ nl) ++ "".
Proof.
  intros (oauthConfig & req0 & body & bodyBytes & Hc & Hr & Hdo & Hread & Hjson).
  unfold brokerRequest in Hdo.
  now erewrite delegated_decoded by eassumption.
Qed.

Lemma undecoded_stdout
    (tenantId : string) (env : Environment) (resource : string)
    (useIntegratedIdentity : bool) (aADClientSecret aADClientID podname podns : string) :
  (forall nmiResp,
     ~ (useIntegratedIdentity = true /\
        exists oauthConfig req0 body bodyBytes,
          adal_NewOAuthConfig (ActiveDirectoryEndpoint env) tenantId = inl oauthConfig /\
          http_NewRequest "GET" (nmiendpoint ++ "?resource=" ++ resource) = inl req0 /\
          client_Do (brokerRequest req0 podname podns) = inl (StatusOK, body) /\
          ioutil_ReadAll body = inl bodyBytes /\
          json_Unmarshal bodyBytes = inl (Some nmiResp))) ->
  stdout (trace (GetServicePrincipalToken tenantId env resource useIntegratedIdentity
                   aADClientSecret aADClientID podname podns)) = "".
Proof.
  intros Hnot.
  destruct (channel_run_spec tenantId env resource useIntegratedIdentity
              aADClientSecret aADClientID podname podns);
    try reflexivity.
  all: exfalso; apply (Hnot nmiResp); split; [assumption |].
  all: exists oauthConfig, req0, body, bodyBytes; now repeat split.
Qed.

(** X7: when the broker answered 200 with a body that decodes to a
    response, standard output holds the access token line and the client
    identifier line of that response, and nothing else; in every other case
    it stays empty.  This holds of the channel, and of both entry points
    for the resource they select. *)
Theorem stdout_only_after_decoding
    (tenantId : string) (env : Environment) (resource : string)
    (useIntegratedIdentity : bool) (aADClientSecret aADClientID podname podns : string)
    (entry : EntryPoint) (grantType : OAuthGrantType) (cloudName : string) :
  let channel := trace (GetServicePrincipalToken tenantId env resource
                          useIntegratedIdentity aADClientSecret aADClientID podname podns) in
  let whole := trace (call entry grantType cloudName tenantId useIntegratedIdentity
                        aADClientSecret aADClientID podname podns) in
  let lines (nmiResp : NMIResponse) :=
    (nl ++ " accesstoken: " ++ AccessToken (Token_ nmiResp) ++ nl) ++
    (nl ++ " clientid: " ++ ClientID nmiResp ++ nl) ++ "" in
  let decoded (env : Environment) (resource : string) (nmiResp : NMIResponse) :=
    useIntegratedIdentity = true /\
    exists oauthConfig req0 body bodyBytes,
      adal_NewOAuthConfig (ActiveDirectoryEndpoint env) tenantId = inl oauthConfig /\
      http_NewRequest "GET" (nmiendpoint ++ "?resource=" ++ resource) = inl req0 /\
      client_Do (brokerRequest req0 podname podns) = inl (StatusOK, body) /\
      ioutil_ReadAll body = inl bodyBytes /\
      json_Unmarshal bodyBytes = inl (Some nmiResp) in
  (forall nmiResp, decoded env resource nmiResp -> stdout channel = lines nmiResp) /\
  ((forall nmiResp, ~ decoded env resource nmiResp) -> stdout channel = "") /\
  (forall env' resource' nmiResp,
     ParseAzureEnvironment cloudName = (env', None) ->
     resourceOf entry env' = Returns resource' ->
     decoded env' resource' nmiResp ->
     stdout whole = lines nmiResp) /\
  ((forall env' resource' nmiResp,
      ParseAzureEnvironment cloudName = (env', None) ->
      resourceOf entry env' = Returns resource' ->
      ~ decoded env' resource' nmiResp) ->
   stdout whole = "").
Proof.
  cbv zeta. split; [| split; [| split]].
  - intros nmiResp (-> & Hdecoded). now apply decoded_stdout.
  - apply undecoded_stdout.
  - intros env' resource' nmiResp Henv Hsel (-> & Hdecoded).
    erewrite call_resolved by eassumption. unfold trace at 1. simpl fst.
    now apply decoded_stdout.
  - intros Hnot. rewrite call_refines.
    destruct (ParseAzureEnvironment cloudName) as [env' [err |]] eqn:Henv.
    { now erewrite acquire_unresolved by eassumption. }
    destruct (resourceOf entry env') as [resource' | p] eqn:Hsel.
    2: { now erewrite acquire_panics by eassumption. }
    erewrite acquire_resolved by eassumption. cbv zeta. unfold trace at 1. simpl fst.
    apply undecoded_stdout. intros nmiResp. now apply (Hnot env' resource' nmiResp).
Qed.

End StandardOutput.

(** ** When a call succeeds, and when it panics *)

Section SuccessAndPanic.
Context {L : GoLibs}.

(** X8: [GetServicePrincipalToken] returns a token in two cases only.
    Without integrated identity: the client secret is not empty and the
    token is the one the library builds from the client identifier, the
    secret and the resource.  With integrated identity: the broker answered
    200 with a body that decodes to a response with a client identifier,
    and the token is the one the library builds from the token, the client
    identifier of that response, and the resource. *)
Theorem channel_success_iff
    (tenantId : string) (env : Environment) (resource : string)
    (useIntegratedIdentity : bool) (aADClientSecret aADClientID podname podns : string)
    (spt : ServicePrincipalToken) :
  outcome (GetServicePrincipalToken tenantId env resource useIntegratedIdentity
             aADClientSecret aADClientID podname podns) = Returns (Some spt, None)
  <->
  (useIntegratedIdentity = false /\ aADClientSecret <> "" /\
   exists oauthConfig,
     adal_NewOAuthConfig (ActiveDirectoryEndpoint env) tenantId = inl oauthConfig /\
     adal_NewServicePrincipalToken oauthConfig aADClientID aADClientSecret resource
       = inl spt) \/
  (useIntegratedIdentity = true /\
   exists oauthConfig req0 body bodyBytes nmiResp,
     adal_NewOAuthConfig (ActiveDirectoryEndpoint env) tenantId = inl oauthConfig /\
     http_NewRequest "GET" (nmiendpoint ++ "?resource=" ++ resource) = inl req0 /\
     client_Do (brokerRequest req0 podname podns) = inl (StatusOK, body) /\
     ioutil_ReadAll body = inl bodyBytes /\
     json_Unmarshal bodyBytes = inl (Some nmiResp) /\
     ClientID nmiResp <> "" /\
     adal_NewServicePrincipalTokenFromManualToken
       oauthConfig (ClientID nmiResp) resource (Token_ nmiResp) = inl spt).
Proof.
  split.
  - destruct (channel_run_spec tenantId env resource useIntegratedIdentity
                aADClientSecret aADClientID podname podns);
      unfold outcome; simpl; intros Hrun; try discriminate Hrun.
    + right. split; [assumption |].
      exists oauthConfig, req0, body, bodyBytes, nmiResp.
      repeat (split; [assumption |]).
      destruct (adal_NewServicePrincipalTokenFromManualToken _ _ _ _);
        simpl in Hrun; [now injection Hrun as -> | discriminate Hrun].
    + left. split; [assumption |]. split; [assumption |].
      exists oauthConfig. split; [assumption |].
      destruct (adal_NewServicePrincipalToken _ _ _ _);
        simpl in Hrun; [now injection Hrun as -> | discriminate Hrun].
  - intros [(-> & Hsecret & oauthConfig & Hc & Hspt)
           | (-> & oauthConfig & req0 & body & bodyBytes & nmiResp
                 & Hc & Hr & Hdo & Hread & Hjson & Hid & Hspt)].
    + erewrite static_secret by eassumption. unfold outcome. simpl. now rewrite Hspt.
    + erewrite delegated_decoded by eassumption. unfold outcome. simpl.
      destruct (String.eqb_spec (ClientID nmiResp) ""); [contradiction |].
      now rewrite Hspt.
Qed.

(** A panic of the channel is the nil pointer dereference after a 200
    answer whose body decodes to the nil pointer. *)
Lemma channel_panic_inv
    (tenantId : string) (env : Environment) (resource : string)
    (useIntegratedIdentity : bool) (aADClientSecret aADClientID podname podns : string)
    (p : PanicValue) :
  outcome (GetServicePrincipalToken tenantId env resource useIntegratedIdentity
             aADClientSecret aADClientID podname podns) = Panics p ->
  p = NilPointerDereference /\
  useIntegratedIdentity = true /\
  exists oauthConfig req0 body bodyBytes,
    adal_NewOAuthConfig (ActiveDirectoryEndpoint env) tenantId = inl oauthConfig /\
    http_NewRequest "GET" (nmiendpoint ++ "?resource=" ++ resource) = inl req0 /\
    client_Do (brokerRequest req0 podname podns) = inl (StatusOK, body) /\
    ioutil_ReadAll body = inl bodyBytes /\
    json_Unmarshal bodyBytes = inl None.
Proof.
  destruct (channel_run_spec tenantId env resource useIntegratedIdentity
              aADClientSecret aADClientID podname podns);
    unfold outcome; simpl; intros Hrun; try discriminate Hrun.
  injection Hrun as <-. split; [reflexivity |]. split; [assumption |].
  exists oauthConfig, req0, body, bodyBytes. now repeat split.
Qed.

(** X9: [GetServicePrincipalToken] panics in one case only, with a nil
    pointer dereference: with integrated identity, when the broker answered
    200 and the body decodes to the nil pointer (the JSON [null]). *)
Theorem channel_panics_iff
    (tenantId : string) (env : Environment) (resource : string)
    (useIntegratedIdentity : bool) (aADClientSecret aADClientID podname podns : string)
    (p : PanicValue) :
  outcome (GetServicePrincipalToken tenantId env resource useIntegratedIdentity
             aADClientSecret aADClientID podname podns) = Panics p
  <->
  p = NilPointerDereference /\
  useIntegratedIdentity = true /\
  exists oauthConfig req0 body bodyBytes,
    adal_NewOAuthConfig (ActiveDirectoryEndpoint env) tenantId = inl oauthConfig /\
    http_NewRequest "GET" (nmiendpoint ++ "?resource=" ++ resource) = inl req0 /\
    client_Do (brokerRequest req0 podname podns) = inl (StatusOK, body) /\
    ioutil_ReadAll body = inl bodyBytes /\
    json_Unmarshal bodyBytes = inl None.
Proof.
  split; [apply channel_panic_inv |].
  intros (-> & -> & oauthConfig & req0 & body & bodyBytes & Hc & Hr & Hdo & Hread & Hjson).
  now erewrite delegated_null by eassumption.
Qed.

(** X10: an entry point panics in two cases only.  [GetKeyvaultToken]
    panics with an index out of range when the environment resolves with
    an empty key vault endpoint; and either entry point panics with the nil
    pointer dereference of the channel it calls for its resource.
    [GetManagementToken] never panics on an index. *)
Theorem entry_panics_iff
    (entry : EntryPoint) (grantType : OAuthGrantType) (cloudName tenantId : string)
    (useIntegratedIdentity : bool) (aADClientSecret aADClientID podname podns : string)
    (p : PanicValue) :
  outcome (call entry grantType cloudName tenantId useIntegratedIdentity
             aADClientSecret aADClientID podname podns) = Panics p
  <->
  (entry = Keyvault /\ p = IndexOutOfRange (-1) 0 /\
   exists env,
     ParseAzureEnvironment cloudName = (env, None) /\ KeyVaultEndpoint env = "") \/
  (p = NilPointerDereference /\
   exists env resource,
     ParseAzureEnvironment cloudName = (env, None) /\
     resourceOf entry env = Returns resource /\
     outcome (GetServicePrincipalToken tenantId env resource useIntegratedIdentity
                aADClientSecret aADClientID podname podns) = Panics p).
Proof.
  rewrite call_refines. split.
  - destruct (ParseAzureEnvironment cloudName) as [env [err |]] eqn:Henv.
    { erewrite acquire_unresolved by eassumption. discriminate. }
    destruct (resourceOf entry env) as [resource | p'] eqn:Hsel.
    + erewrite acquire_resolved by eassumption. cbv zeta. unfold outcome at 1. simpl.
      destruct (outcome (GetServicePrincipalToken tenantId env resource
                  useIntegratedIdentity aADClientSecret aADClientID podname podns))
        as [r | p'] eqn:Hrun; [discriminate |].
      intros H. injection H as ->. right.
      split; [now apply channel_panic_inv in Hrun |].
      exists env, resource. now repeat split.
    + erewrite acquire_panics by eassumption. intros H. injection H as ->.
      left. destruct entry; [discriminate Hsel |].
      unfold resourceOf, secretsStoreResource in Hsel.
      destruct (snoc_cases (KeyVaultEndpoint env)) as [Hkv | (t & c & Hkv)].
      * rewrite Hkv in Hsel. injection Hsel as <-.
        split; [reflexivity |]. split; [reflexivity |]. now exists env.
      * rewrite Hkv in Hsel.
        destruct (strip_returns (s := snoc t c)) as (r & Hr).
        { unfold snoc. now destruct t. }
        rewrite Hr in Hsel. discriminate Hsel.
  - intros [(-> & -> & env & Henv & Hkv) | (_ & env & resource & Henv & Hsel & Hrun)].
    + erewrite acquire_panics; [reflexivity | eassumption |].
      unfold resourceOf, secretsStoreResource. now rewrite Hkv.
    + erewrite acquire_resolved by eassumption. cbv zeta. unfold outcome at 1. simpl.
      now rewrite Hrun.
Qed.

End SuccessAndPanic.

(** ** The entry points, from the environment to the authorizer *)

Section EntryPointsEndToEnd.
Context {L : GoLibs}.

(** X11: a cloud name that the lookup refuses stops either entry point at
    once: nothing is logged, printed or sent, and the error of the lookup
    comes back as it is, with a nil authorizer. *)
Theorem unresolved_environment_stops
    (entry : EntryPoint) (grantType : OAuthGrantType) (cloudName tenantId : string)
    (useIntegratedIdentity : bool) (aADClientSecret aADClientID podname podns : string)
    (env : Environment) (unknown : lib_error) :
  cloudName <> "" ->
  azure_EnvironmentFromName cloudName = (env, Some unknown) ->
  call entry grantType cloudName tenantId useIntegratedIdentity
    aADClientSecret aADClientID podname podns =
  ([], Returns (None, Some (lib_err unknown))).
Proof.
  intros Hname Hlookup. rewrite call_refines.
  eapply acquire_unresolved.
  rewrite ParseAzureEnvironment_named by assumption. now rewrite Hlookup.
Qed.

(** X12: an entry point returns an authorizer exactly when the environment
    resolves, its resource is selected and the channel returns a token for
    that resource; the authorizer is the bearer authorizer around that
    token. *)
Theorem entry_success_iff
    (entry : EntryPoint) (grantType : OAuthGrantType) (cloudName tenantId : string)
    (useIntegratedIdentity : bool) (aADClientSecret aADClientID podname podns : string)
    (authorizer : BearerAuthorizer) :
  outcome (call entry grantType cloudName tenantId useIntegratedIdentity
             aADClientSecret aADClientID podname podns) = Returns (Some authorizer, None)
  <->
  exists env resource spt,
    ParseAzureEnvironment cloudName = (env, None) /\
    resourceOf entry env = Returns resource /\
    outcome (GetServicePrincipalToken tenantId env resource useIntegratedIdentity
               aADClientSecret aADClientID podname podns) = Returns (Some spt, None) /\
    authorizer = NewBearerAuthorizer (Some spt).
Proof.
  rewrite call_refines. split.
  - destruct (ParseAzureEnvironment cloudName) as [env [err |]] eqn:Henv.
    { erewrite acquire_unresolved by eassumption. discriminate. }
    destruct (resourceOf entry env) as [resource | p] eqn:Hsel.
    2: { erewrite acquire_panics by eassumption. discriminate. }
    erewrite acquire_resolved by eassumption. cbv zeta. unfold outcome at 1. simpl.
    destruct (outcome (GetServicePrincipalToken tenantId env resource
                useIntegratedIdentity aADClientSecret aADClientID podname podns))
      as [[token err] | p] eqn:Hrun; [| discriminate].
    destruct (channel_result_shape _ _ _ _ _ _ _ _ Hrun)
      as [(spt & -> & ->) | (-> & e & ->)]; unfold wrap_credential; simpl; intros H.
    + injection H as <-. exists env, resource, spt. now repeat split.
    + discriminate H.
  - intros (env & resource & spt & Henv & Hsel & Hrun & ->).
    erewrite acquire_resolved by eassumption. cbv zeta. unfold outcome at 1. simpl.
    now rewrite Hrun.
Qed.

(** X13: a request sent by an entry point is the request of the delegated
    path for the resource of that entry point: integrated identity is on,
    the environment resolved, and the request is the GET of the broker
    endpoint with that resource in the query, to which the pod namespace and
    then the pod name were added as headers. *)
Theorem entry_request_shape
    (entry : EntryPoint) (grantType : OAuthGrantType) (cloudName tenantId : string)
    (useIntegratedIdentity : bool) (aADClientSecret aADClientID podname podns : string)
    (req : Request) :
  In (EvHttpDo req)
     (trace (call entry grantType cloudName tenantId useIntegratedIdentity
               aADClientSecret aADClientID podname podns)) ->
  useIntegratedIdentity = true /\
  exists env resource req0,
    ParseAzureEnvironment cloudName = (env, None) /\
    resourceOf entry env = Returns resource /\
    http_NewRequest "GET" (nmiendpoint ++ "?resource=" ++ resource) = inl req0 /\
    req = Header_Add (Header_Add req0 podnsheader podns) podnameheader podname.
Proof.
  intros Hin.
  apply call_sent in Hin as (env & resource & Henv & Hsel & Hsent).
  apply sent_request in Hsent as (Huii & oauthConfig & req0 & _ & Hr & Hreq).
  split; [assumption |]. exists env, resource, req0. now repeat split.
Qed.

Lemma channel_ignores_client_credentials
    (tenantId : string) (env : Environment) (resource podname podns : string)
    (secret clientID secret' clientID' : string) :
  GetServicePrincipalToken tenantId env resource true secret clientID podname podns =
  GetServicePrincipalToken tenantId env resource true secret' clientID' podname podns.
Proof.
  unfold GetServicePrincipalToken.
  now destruct (adal_NewOAuthConfig (ActiveDirectoryEndpoint env) tenantId).
Qed.

Lemma channel_ignores_pod_identity
    (tenantId : string) (env : Environment) (resource aADClientSecret aADClientID : string)
    (podname podns podname' podns' : string) :
  GetServicePrincipalToken tenantId env resource false
    aADClientSecret aADClientID podname podns =
  GetServicePrincipalToken tenantId env resource false
    aADClientSecret aADClientID podname' podns'.
Proof.
  unfold GetServicePrincipalToken.
  now destruct (adal_NewOAuthConfig (ActiveDirectoryEndpoint env) tenantId).
Qed.

(** X14: with integrated identity the client secret and the client
    identifier of the configuration are dead inputs: two calls that differ
    in them only are the same run, of the channel and of either entry
    point. *)
Theorem delegated_ignores_client_credentials
    (entry : EntryPoint) (grantType : OAuthGrantType) (cloudName tenantId : string)
    (env : Environment) (resource podname podns : string)
    (secret clientID secret' clientID' : string) :
  GetServicePrincipalToken tenantId env resource true secret clientID podname podns =
  GetServicePrincipalToken tenantId env resource true secret' clientID' podname podns /\
  call entry grantType cloudName tenantId true secret clientID podname podns =
  call entry grantType cloudName tenantId true secret' clientID' podname podns.
Proof.
  split; [apply channel_ignores_client_credentials |].
  rewrite !call_refines. unfold acquireAuthorizer.
  destruct (ParseAzureEnvironment cloudName) as [env' [err |]]; [reflexivity |].
  apply bind_ext. intros resource'.
  now rewrite (channel_ignores_client_credentials tenantId env' resource' podname podns
                 secret clientID secret' clientID').
Qed.

(** X15: without integrated identity the pod name and the pod namespace
    are dead inputs: two calls that differ in them only are the same run,
    of the channel and of either entry point. *)
Theorem static_ignores_pod_identity
    (entry : EntryPoint) (grantType : OAuthGrantType) (cloudName tenantId : string)
    (env : Environment) (resource aADClientSecret aADClientID : string)
    (podname podns podname' podns' : string) :
  GetServicePrincipalToken tenantId env resource false
    aADClientSecret aADClientID podname podns =
  GetServicePrincipalToken tenantId env resource false
    aADClientSecret aADClientID podname' podns' /\
  call entry grantType cloudName tenantId false aADClientSecret aADClientID podname podns =
  call entry grantType cloudName tenantId false aADClientSecret aADClientID podname' podns'.
Proof.
  split; [apply channel_ignores_pod_identity |].
  rewrite !call_refines. unfold acquireAuthorizer.
  destruct (ParseAzureEnvironment cloudName) as [env' [err |]]; [reflexivity |].
  apply bind_ext. intros resource'.
  now rewrite (channel_ignores_pod_identity tenantId env' resource'
                 aADClientSecret aADClientID podname podns podname' podns').
Qed.

End EntryPointsEndToEnd.

(** ** The normalisation, case by case *)

Lemma snoc_inj (s t : string) (c d : ascii) :
  snoc s c = snoc t d -> s = t /\ c = d.
Proof.
  unfold snoc. revert t.
  induction s as [| a s IH]; intros [| b t] H; simpl in H.
  - injection H as ->. now split.
  - injection H as -> H. destruct t; discriminate H.
  - injection H as -> H. destruct s; discriminate H.
  - injection H as -> H. destruct (IH _ H) as [-> ->]. now split.
Qed.

(** X16: the normalisation of the key vault endpoint panics on the empty
    string and on nothing else; on any other string it returns the string
    without its last byte when that byte is the separator, and the string
    itself when it is not. *)
Theorem stripTrailingSlash_spec (s : string) :
  match stripTrailingSlash s with
  | Panics p => s = "" /\ p = IndexOutOfRange (-1) 0
  | Returns r =>
      s <> "" /\
      (s = snoc r "/" \/ (r = s /\ forall t, s <> snoc t "/"))
  end.
Proof.
  destruct (snoc_cases s) as [-> | (t & c & ->)].
  - rewrite strip_empty. now split.
  - assert (Hne : snoc t c <> "") by (unfold snoc; now destruct t).
    destruct (Ascii.eqb_spec c "/"%char) as [-> | Hc].
    + rewrite strip_separator. split; [assumption | now left].
    + rewrite (strip_other t Hc). split; [assumption | right].
      split; [reflexivity |].
      intros t' H. apply snoc_inj in H as [_ H]. contradiction.
Qed.

(** ** Errors *)

Section Errors.
Context {L : GoLibs}.

(** X17: with no integrated identity and an empty client secret, an entry
    point whose environment resolves and whose OAuth configuration is built
    returns a nil authorizer and the error naming the client identifier,
    and does nothing else. *)
Theorem entry_missing_credential
    (entry : EntryPoint) (grantType : OAuthGrantType) (cloudName tenantId : string)
    (aADClientID podname podns : string)
    (env : Environment) (resource : string) (oauthConfig : OAuthConfig) :
  ParseAzureEnvironment cloudName = (env, None) ->
  resourceOf entry env = Returns resource ->
  adal_NewOAuthConfig (ActiveDirectoryEndpoint env) tenantId = inl oauthConfig ->
  call entry grantType cloudName tenantId false "" aADClientID podname podns =
  ([], Returns (None, Some (MissingCredential aADClientID))).
Proof.
  intros Henv Hsel Hconfig.
  erewrite call_resolved by eassumption.
  now rewrite static_no_secret, Hconfig.
Qed.

(** X18: an error returned by [GetServicePrincipalToken] is the wrapped
    error of the OAuth configuration, the error naming the client
    identifier, the incomplete-response error, the error carrying a status
    other than 200, or an error of a library passed on as it is. *)
Theorem channel_errors_classified
    (tenantId : string) (env : Environment) (resource : string)
    (useIntegratedIdentity : bool) (aADClientSecret aADClientID podname podns : string)
    (token : option ServicePrincipalToken) (e : error) :
  outcome (GetServicePrincipalToken tenantId env resource useIntegratedIdentity
             aADClientSecret aADClientID podname podns) = Returns (token, Some e) ->
  (exists err,
     adal_NewOAuthConfig (ActiveDirectoryEndpoint env) tenantId = inr err /\
     e = fmt_Errorf ("creating the OAuth config: " ++ lib_Error err)) \/
  (useIntegratedIdentity = false /\ aADClientSecret = "" /\
   e = MissingCredential aADClientID) \/
  (useIntegratedIdentity = true /\ e = BrokerIncompleteResponse) \/
  (useIntegratedIdentity = true /\
   exists status, status <> StatusOK /\ e = BrokerResponseError status) \/
  (exists err, e = lib_err err).
Proof.
  destruct (channel_run_spec tenantId env resource useIntegratedIdentity
              aADClientSecret aADClientID podname podns);
    unfold outcome; simpl; intros Hrun; try discriminate Hrun.
  all: try (injection Hrun as <- <-).
  - left. eauto.
  - do 4 right. eauto.
  - do 4 right. eauto.
  - do 4 right. eauto.
  - do 4 right. eauto.
  - do 2 right. left. now split.
  - destruct (adal_NewServicePrincipalTokenFromManualToken _ _ _ _);
      simpl in Hrun; [discriminate Hrun |].
    injection Hrun as <- <-. do 4 right. eauto.
  - do 3 right. left. split; [assumption |]. eauto.
  - destruct (adal_NewServicePrincipalToken _ _ _ _);
      simpl in Hrun; [discriminate Hrun |].
    injection Hrun as <- <-. do 4 right. eauto.
  - right. left. now repeat split.
Qed.

End Errors.

(** ** The further properties on the test double *)

Lemma channel_token_xor_error_witness :
  outcome (GetServicePrincipalToken (L := Stub.brokerOK) "tenant" Stub.PublicCloud
             "https://vault.azure.net" true "" "" "pod" "ns") =
    Returns (Some Stub.vaultCredential, None) /\
  ((exists spt : Stub.StubToken, Some Stub.vaultCredential = Some spt /\
                                 @None (error (L := Stub.brokerOK)) = None) \/
   (Some Stub.vaultCredential = None /\
    exists e, @None (error (L := Stub.brokerOK)) = Some e)).
Proof.
  split; [reflexivity |].
  apply (@channel_token_xor_error Stub.brokerOK "tenant" Stub.PublicCloud
           "https://vault.azure.net" true "" "" "pod" "ns"
           (Some Stub.vaultCredential) None).
  reflexivity.
Defined.

Lemma entry_authorizer_xor_error_witness :
  outcome (GetKeyvaultToken (L := Stub.broker404) OAuthGrantTypeServicePrincipal
             "" "tenant" true "" "" "pod" "ns") =
    Returns (None, Some (BrokerResponseError (L := Stub.broker404) 404)) /\
  ((exists spt : Stub.StubToken,
      @None (BearerAuthorizer (L := Stub.broker404)) =
        Some (NewBearerAuthorizer (L := Stub.broker404) (Some spt)) /\
      Some (BrokerResponseError (L := Stub.broker404) 404) = None) \/
   (@None (BearerAuthorizer (L := Stub.broker404)) = None /\
    exists e, Some (BrokerResponseError (L := Stub.broker404) 404) = Some e)).
Proof.
  split; [reflexivity |].
  apply (proj2 (@entry_authorizer_xor_error Stub.broker404 OAuthGrantTypeServicePrincipal
                  "" "tenant" true "" "" "pod" "ns"
                  None (Some (BrokerResponseError (L := Stub.broker404) 404)))).
  reflexivity.
Defined.

Lemma response_body_closed_last_witness :
  let whole := trace (call (L := Stub.brokerNull) Keyvault OAuthGrantTypeServicePrincipal
                        "" "tenant" true "" "" "pod" "ns") in
  In (EvHttpDo (L := Stub.brokerNull) (Stub.requestFor "https://vault.azure.net")) whole /\
  outcome (call (L := Stub.brokerNull) Keyvault OAuthGrantTypeServicePrincipal
             "" "tenant" true "" "" "pod" "ns") = Panics NilPointerDereference /\
  exists t, whole = (t ++ [EvBodyClose])%list /\ ~ In EvBodyClose t.
Proof.
  cbv zeta.
  assert (Hsent :
    In (EvHttpDo (L := Stub.brokerNull) (Stub.requestFor "https://vault.azure.net"))
       (trace (call (L := Stub.brokerNull) Keyvault OAuthGrantTypeServicePrincipal
                 "" "tenant" true "" "" "pod" "ns")))
    by (unfold trace; simpl; right; left; reflexivity).
  split; [exact Hsent |]. split; [reflexivity |].
  exact (proj2 (@response_body_closed_last Stub.brokerNull "tenant" Stub.PublicCloud
                  "https://vault.azure.net" true "" "" "pod" "ns"
                  Keyvault OAuthGrantTypeServicePrincipal ""
                  (Stub.requestFor "https://vault.azure.net")) Hsent).
Defined.

Lemma broker_failures_pass_unchanged_witness :
  let req := Stub.requestFor "https://management.azure.com/" in
  client_Do (GoLibs := Stub.brokerDown) req = inr Stub.ConnectionRefused /\
  In (EvHttpDo (L := Stub.brokerDown) req)
     (trace (call (L := Stub.brokerDown) Management OAuthGrantTypeServicePrincipal
               "" "tenant" true "" "" "pod" "ns")) /\
  outcome (call (L := Stub.brokerDown) Management OAuthGrantTypeServicePrincipal
             "" "tenant" true "" "" "pod" "ns") =
  Returns (None, Some (lib_err (L := Stub.brokerDown) Stub.ConnectionRefused)).
Proof.
  cbv zeta.
  assert (Hsent :
    In (EvHttpDo (L := Stub.brokerDown) (Stub.requestFor "https://management.azure.com/"))
       (trace (call (L := Stub.brokerDown) Management OAuthGrantTypeServicePrincipal
                 "" "tenant" true "" "" "pod" "ns")))
    by (unfold trace; simpl; right; left; reflexivity).
  split; [reflexivity |]. split; [exact Hsent |].
  apply (proj2 (@broker_failures_pass_unchanged Stub.brokerDown "tenant" Stub.PublicCloud
                  "https://management.azure.com/" true "" "" "pod" "ns"
                  Management OAuthGrantTypeServicePrincipal ""
                  (Stub.requestFor "https://management.azure.com/") Stub.ConnectionRefused
                  (or_introl eq_refl))
               Hsent).
Defined.

Lemma channel_success_iff_witness :
  Stub.NewOAuthConfig "https://login.microsoftonline.com/" "tenant" = inl Stub.publicConfig /\
  "s3cret" <> "" /\
  Stub.NewServicePrincipalToken Stub.publicConfig "app" "s3cret" "https://vault.azure.net" =
    inl (Stub.mkSPT Stub.publicConfig "app" "https://vault.azure.net"
           (Stub.ServicePrincipalTokenSecret "s3cret") Stub.zeroToken) /\
  outcome (GetServicePrincipalToken (L := Stub.brokerDown) "tenant" Stub.PublicCloud
             "https://vault.azure.net" false "s3cret" "app" "pod" "ns") =
  Returns (Some (Stub.mkSPT Stub.publicConfig "app" "https://vault.azure.net"
                   (Stub.ServicePrincipalTokenSecret "s3cret") Stub.zeroToken), None).
Proof.
  split; [reflexivity |]. split; [discriminate |]. split; [reflexivity |].
  apply (proj2 (@channel_success_iff Stub.brokerDown "tenant" Stub.PublicCloud
                  "https://vault.azure.net" false "s3cret" "app" "pod" "ns"
                  (Stub.mkSPT Stub.publicConfig "app" "https://vault.azure.net"
                     (Stub.ServicePrincipalTokenSecret "s3cret") Stub.zeroToken))).
  left. split; [reflexivity |]. split; [discriminate |].
  exists Stub.publicConfig. split; reflexivity.
Defined.

Lemma channel_panics_iff_witness :
  client_Do (GoLibs := Stub.brokerNull) (Stub.requestFor "https://vault.azure.net") =
    inl (StatusOK, "null") /\
  json_Unmarshal (GoLibs := Stub.brokerNull) "null" = inl None /\
  outcome (GetServicePrincipalToken (L := Stub.brokerNull) "tenant" Stub.PublicCloud
             "https://vault.azure.net" true "" "" "pod" "ns") =
  Panics NilPointerDereference.
Proof.
  split; [reflexivity |]. split; [reflexivity |].
  apply (proj2 (@channel_panics_iff Stub.brokerNull "tenant" Stub.PublicCloud
                  "https://vault.azure.net" true "" "" "pod" "ns" NilPointerDereference)).
  split; [reflexivity |]. split; [reflexivity |].
  exists Stub.publicConfig,
         (Stub.mkRequest "GET"
            "http://localhost:2579/host/token/?resource=https://vault.azure.net" []),
         "null", "null".
  repeat split.
Defined.

Lemma entry_panics_iff_witness :
  ParseAzureEnvironment (L := Stub.brokerOK) "AzureStackCloud" = (Stub.StackCloud, None) /\
  KeyVaultEndpoint Stub.StackCloud = "" /\
  outcome (call (L := Stub.brokerOK) Keyvault OAuthGrantTypeServicePrincipal
             "AzureStackCloud" "tenant" false "s3cret" "app" "pod" "ns") =
  Panics (IndexOutOfRange (-1) 0).
Proof.
  split; [reflexivity |]. split; [reflexivity |].
  apply (proj2 (@entry_panics_iff Stub.brokerOK Keyvault OAuthGrantTypeServicePrincipal
                  "AzureStackCloud" "tenant" false "s3cret" "app" "pod" "ns"
                  (IndexOutOfRange (-1) 0))).
  left. split; [reflexivity |]. split; [reflexivity |].
  exists Stub.StackCloud. split; reflexivity.
Defined.

Lemma unresolved_environment_stops_witness :
  "unknown-xyz" <> "" /\
  Stub.EnvironmentFromName "unknown-xyz" =
    (Stub.zeroEnvironment, Some (Stub.NoSuchCloud "UNKNOWN-XYZ")) /\
  call (L := Stub.brokerOK) Keyvault OAuthGrantTypeServicePrincipal
    "unknown-xyz" "tenant" true "" "" "pod" "ns" =
  ([], Returns (None, Some (lib_err (L := Stub.brokerOK) (Stub.NoSuchCloud "UNKNOWN-XYZ")))).
Proof.
  split; [discriminate |]. split; [reflexivity |].
  apply (@unresolved_environment_stops Stub.brokerOK Keyvault OAuthGrantTypeServicePrincipal
           "unknown-xyz" "tenant" true "" "" "pod" "ns"
           Stub.zeroEnvironment (Stub.NoSuchCloud "UNKNOWN-XYZ"));
    [discriminate | reflexivity].
Defined.

Lemma entry_success_iff_witness :
  ParseAzureEnvironment (L := Stub.brokerOK) "" = (Stub.PublicCloud, None) /\
  resourceOf Keyvault Stub.PublicCloud = Returns "https://vault.azure.net" /\
  outcome (GetServicePrincipalToken (L := Stub.brokerOK) "tenant" Stub.PublicCloud
             "https://vault.azure.net" true "" "" "pod" "ns") =
    Returns (Some Stub.vaultCredential, None) /\
  outcome (call (L := Stub.brokerOK) Keyvault OAuthGrantTypeServicePrincipal
             "" "tenant" true "" "" "pod" "ns") =
  Returns (Some (NewBearerAuthorizer (L := Stub.brokerOK) (Some Stub.vaultCredential)), None).
Proof.
  split; [reflexivity |]. split; [reflexivity |]. split; [reflexivity |].
  apply (proj2 (@entry_success_iff Stub.brokerOK Keyvault OAuthGrantTypeServicePrincipal
                  "" "tenant" true "" "" "pod" "ns"
                  (NewBearerAuthorizer (L := Stub.brokerOK) (Some Stub.vaultCredential)))).
  exists Stub.PublicCloud, "https://vault.azure.net", Stub.vaultCredential.
  repeat split.
Defined.

Lemma entry_request_shape_witness :
  let req := Stub.requestFor "https://vault.azure.net" in
  In (EvHttpDo (L := Stub.broker404) req)
     (trace (call (L := Stub.broker404) Keyvault OAuthGrantTypeServicePrincipal
               "" "tenant" true "" "" "pod" "ns")) /\
  true = true /\
  exists env resource req0,
    ParseAzureEnvironment (L := Stub.broker404) "" = (env, None) /\
    resourceOf Keyvault env = Returns resource /\
    Stub.NewRequest "GET" (nmiendpoint ++ "?resource=" ++ resource) = inl req0 /\
    req = Stub.Add (Stub.Add req0 podnsheader "ns") podnameheader "pod".
Proof.
  cbv zeta.
  assert (Hsent :
    In (EvHttpDo (L := Stub.broker404) (Stub.requestFor "https://vault.azure.net"))
       (trace (call (L := Stub.broker404) Keyvault OAuthGrantTypeServicePrincipal
                 "" "tenant" true "" "" "pod" "ns")))
    by (unfold trace; simpl; right; left; reflexivity).
  split; [exact Hsent |].
  exact (@entry_request_shape Stub.broker404 Keyvault OAuthGrantTypeServicePrincipal
           "" "tenant" true "" "" "pod" "ns"
           (Stub.requestFor "https://vault.azure.net") Hsent).
Defined.

Lemma entry_missing_credential_witness :
  ParseAzureEnvironment (L := Stub.brokerDown) "AzureChinaCloud" = (Stub.ChinaCloud, None) /\
  resourceOf Keyvault Stub.ChinaCloud = Returns "https://vault.azure.cn" /\
  Stub.NewOAuthConfig "https://login.chinacloudapi.cn/" "tenant" =
    inl (Stub.mkOAuthConfig "https://login.chinacloudapi.cn/" "tenant") /\
  call (L := Stub.brokerDown) Keyvault OAuthGrantTypeServicePrincipal
    "AzureChinaCloud" "tenant" false "" "app" "pod" "ns" =
  ([], Returns (None, Some (MissingCredential (L := Stub.brokerDown) "app"))).
Proof.
  split; [reflexivity |]. split; [reflexivity |]. split; [reflexivity |].
  apply (@entry_missing_credential Stub.brokerDown Keyvault OAuthGrantTypeServicePrincipal
           "AzureChinaCloud" "tenant" "app" "pod" "ns" Stub.ChinaCloud
           "https://vault.azure.cn"
           (Stub.mkOAuthConfig "https://login.chinacloudapi.cn/" "tenant"));
    reflexivity.
Defined.

Lemma channel_errors_classified_witness :
  outcome (GetServicePrincipalToken (L := Stub.brokerNoClientID) "tenant" Stub.PublicCloud
             "https://vault.azure.net" true "" "" "pod" "ns") =
    Returns (None, Some (BrokerIncompleteResponse (L := Stub.brokerNoClientID))) /\
  ((exists err,
      Stub.NewOAuthConfig "https://login.microsoftonline.com/" "tenant" = inr err /\
      BrokerIncompleteResponse (L := Stub.brokerNoClientID) =
        fmt_Errorf ("creating the OAuth config: " ++ Stub.StubError_text err)) \/
   (true = false /\ "" = "" /\
    BrokerIncompleteResponse (L := Stub.brokerNoClientID) = MissingCredential "") \/
   (true = true /\
    BrokerIncompleteResponse (L := Stub.brokerNoClientID) = BrokerIncompleteResponse) \/
   (true = true /\
    exists status, status <> StatusOK /\
      BrokerIncompleteResponse (L := Stub.brokerNoClientID) = BrokerResponseError status) \/
   (exists err, BrokerIncompleteResponse (L := Stub.brokerNoClientID) = lib_err err)).
Proof.
  split; [reflexivity |].
  apply (@channel_errors_classified Stub.brokerNoClientID "tenant" Stub.PublicCloud
           "https://vault.azure.net" true "" "" "pod" "ns" None
           (BrokerIncompleteResponse (L := Stub.brokerNoClientID))).
  reflexivity.
Defined.

Lemma stdout_only_after_decoding_witness :
  ParseAzureEnvironment (L := Stub.brokerOK) "" = (Stub.PublicCloud, None) /\
  resourceOf Keyvault Stub.PublicCloud = Returns "https://vault.azure.net" /\
  client_Do (GoLibs := Stub.brokerOK) (Stub.requestFor "https://vault.azure.net") =
    inl (StatusOK, "token-and-clientid") /\
  json_Unmarshal (GoLibs := Stub.brokerOK) "token-and-clientid" =
    inl (Some (mkNMIResponse (Stub.brokerToken "eyJ0eXAi") "abc")) /\
  stdout (trace (call (L := Stub.brokerOK) Keyvault OAuthGrantTypeServicePrincipal
                   "" "tenant" true "" "" "pod" "ns")) =
  (nl ++ " accesstoken: " ++ "eyJ0eXAi" ++ nl) ++ (nl ++ " clientid: " ++ "abc" ++ nl) ++ "".
Proof.
  split; [reflexivity |]. split; [reflexivity |]. split; [reflexivity |].
  split; [reflexivity |].
  destruct (@stdout_only_after_decoding Stub.brokerOK "tenant" Stub.PublicCloud
              "https://vault.azure.net" true "" "" "pod" "ns"
              Keyvault OAuthGrantTypeServicePrincipal "")
    as (_ & _ & Hwhole & _).
  apply (Hwhole Stub.PublicCloud "https://vault.azure.net"
           (mkNMIResponse (Stub.brokerToken "eyJ0eXAi") "abc") eq_refl eq_refl).
  split; [reflexivity |].
  exists Stub.publicConfig,
         (Stub.mkRequest "GET"
            "http://localhost:2579/host/token/?resource=https://vault.azure.net" []),
         "token-and-clientid", "token-and-clientid".
  repeat split.
Defined.
